(** * A Ben-Or consensus node (src/nodes/node.ts)

    Shallow embedding of the per-node state, the message buffers, the
    request handlers and the consensus loop of [node], followed by the
    properties of the tallies, of the decision flag, of the kill flag
    and of the request handlers. *)

From Stdlib Require Import ZArith Bool Lia DecimalString.
From stdpp Require Import base option list gmap strings fin_maps.

Local Open Scope Z_scope.

(** ** Data model *)

(** [Value] of ../types: the literal union 0 | 1 | "?". *)
Inductive Value := V0 | V1 | VQ.

#[global] Instance Value_eq_dec : EqDecision Value.
Proof. solve_decision. Defined.

(** What a field of the parsed request body [req.body] can hold.  A
    field that is absent reads as [JUndefined].  A number [JNum z] is
    the parsed number, an integer that a double holds.  Numbers that
    are no integers, arrays and objects are left out: the code reads a
    field only by [===] against a number or a string, where they fail
    as [JNull] does, or as a property name, where they act as the
    string of that name. *)
Inductive JSON :=
| JNull
| JUndefined
| JBool (b : bool)
| JNum (z : Z)
| JStr (s : string).

#[global] Instance JSON_eq_dec : EqDecision JSON.
Proof. solve_decision. Defined.

(** [a === b] on the primitives above. *)
Definition strict_eq (a b : JSON) : bool := bool_decide (a = b).

(** [v.toString()] for a [Value]. *)
Definition toString (v : Value) : string :=
  match v with
  | V0 => "0"
  | V1 => "1"
  | VQ => "?"
  end.

(** How a [Value | null] is written by [JSON.stringify]. *)
Definition to_wire (x : option Value) : JSON :=
  match x with
  | None => JNull
  | Some V0 => JNum 0
  | Some V1 => JNum 1
  | Some VQ => JStr "?"
  end.

(** [String(z)] for an integer below [10^21]: its decimal digits. *)
Definition decimal (z : Z) : string := NilZero.string_of_int (Z.to_int z).

(** The property name a value stands for when it is used as a key,
    [obj[v]]. *)
Definition propertyName (v : JSON) : string :=
  match v with
  | JNull => "null"
  | JUndefined => "undefined"
  | JBool true => "true"
  | JBool false => "false"
  | JNum z => decimal z
  | JStr s => s
  end.

(** A number in the range where every integer is a double. *)
Definition exactNumber (v : JSON) : Prop :=
  match v with
  | JNum z => - 2 ^ 53 ≤ z ≤ 2 ^ 53
  | _ => True
  end.

(** The properties every object literal inherits from
    [Object.prototype]: functions, and the accessor [__proto__] that
    returns an object; all are truthy and none is an array. *)
Definition objectPrototype : list string :=
  ["constructor"; "__defineGetter__"; "__defineSetter__"; "hasOwnProperty";
   "__lookupGetter__"; "__lookupSetter__"; "isPrototypeOf";
   "propertyIsEnumerable"; "toString"; "valueOf"; "__proto__";
   "toLocaleString"]%string.

Definition inherited (name : string) : bool :=
  existsb (String.eqb name) objectPrototype.

(** How [state.k], a number or [null], is written by [JSON.stringify]. *)
Definition roundWire (r : option Z) : JSON :=
  match r with
  | None => JNull
  | Some z => JNum z
  end.

(** The property name of a round: its digits, or ["null"]. *)
Definition keyOf (r : option Z) : string := propertyName (roundWire r).

(** An entry [{ value, from }] of a message bucket. *)
Record Msg := mkMsg { msg_value : JSON; msg_from : JSON }.

(** The parsed request body [req.body], an object: its fields [phase],
    [value], [k] and [from], each possibly absent. *)
Record Body := mkBody {
  body_phase : JSON;
  body_value : JSON;
  body_k : JSON;
  body_from : JSON
}.

(** The arguments of [node] that the handlers and the loop read. *)
Record Config := mkConfig {
  nodeId : Z;
  N : Z;
  F : Z;
  initialValue : Value;
  isFaulty : bool
}.

(** The [state] object; [None] is the [null] of a faulty node. *)
Record State := mkState {
  killed : bool;
  x : option Value;
  decided : option bool;
  k : option Z
}.

(** Truthiness of [state.decided]. *)
Definition truthy (d : option bool) : bool := default false d.

(** A message buffer [Record<number, { value, from }[]>]: its own
    properties, the buckets, by property name; the bucket of round 3 is
    under ["3"]. *)
Abbreviation Buffer := (gmap string (list Msg)).

(** Where an activation of [startConsensus] is suspended. *)
Inductive Phase := PhaseOne | PhaseTwo.

#[global] Instance Phase_eq_dec : EqDecision Phase.
Proof. solve_decision. Defined.

Inductive PC :=
| AwaitBroadcast (ph : Phase)
    (* [await Promise.all(promises)] in [broadcastMessage] *)
| AwaitPoll (ph : Phase) (currentK : option Z)
    (* [await delay(10)] in the loop of [waitForMessages] *)
| AwaitRoundDelay.
    (* [await delay(10)] at the end of the body of the round loop *)

#[global] Instance PC_eq_dec : EqDecision PC.
Proof. solve_decision. Defined.

(** Everything the closure of [node] holds, the suspended activations
    of [startConsensus] and the requests sent to the peers so far. *)
Record Node := mkNode {
  state : State;
  phaseOneMessages : Buffer;
  phaseTwoMessages : Buffer;
  consensusRunning : bool;
  tasks : list PC;
  outbox : list (Z * Body)
}.

Definition set_state (st : State) (n : Node) : Node :=
  mkNode st (phaseOneMessages n) (phaseTwoMessages n)
         (consensusRunning n) (tasks n) (outbox n).

Definition set_phaseOneMessages (b : Buffer) (n : Node) : Node :=
  mkNode (state n) b (phaseTwoMessages n)
         (consensusRunning n) (tasks n) (outbox n).

Definition set_phaseTwoMessages (b : Buffer) (n : Node) : Node :=
  mkNode (state n) (phaseOneMessages n) b
         (consensusRunning n) (tasks n) (outbox n).

Definition set_consensusRunning (r : bool) (n : Node) : Node :=
  mkNode (state n) (phaseOneMessages n) (phaseTwoMessages n)
         r (tasks n) (outbox n).

Definition set_tasks (ts : list PC) (n : Node) : Node :=
  mkNode (state n) (phaseOneMessages n) (phaseTwoMessages n)
         (consensusRunning n) ts (outbox n).

Definition set_outbox (o : list (Z * Body)) (n : Node) : Node :=
  mkNode (state n) (phaseOneMessages n) (phaseTwoMessages n)
         (consensusRunning n) (tasks n) o.

Definition set_killed (b : bool) (st : State) : State :=
  mkState b (x st) (decided st) (k st).

Definition set_x (v : option Value) (st : State) : State :=
  mkState (killed st) v (decided st) (k st).

Definition set_decided (d : option bool) (st : State) : State :=
  mkState (killed st) (x st) d (k st).

Definition set_k (r : option Z) (st : State) : State :=
  mkState (killed st) (x st) (decided st) r.

(** The closure right after the declarations of lines 21-32. *)
Definition init (cfg : Config) : Node :=
  {| state :=
       {| killed := false;
          x := if isFaulty cfg then None else Some (initialValue cfg);
          decided := if isFaulty cfg then None else Some false;
          k := if isFaulty cfg then None else Some 0 |};
     phaseOneMessages := ∅;
     phaseTwoMessages := ∅;
     consensusRunning := false;
     tasks := [];
     outbox := [] |}.

(** ** The tallies *)

(** [counts[key]++] on a key the object has. *)
Definition increment (key : string) (counts : gmap string Z) : gmap string Z :=
  alter (λ c, c + 1) key counts.

(** [counts[key] >= threshold]; an absent property compares false. *)
Definition reaches (counts : gmap string Z) (key : string) (threshold : Z) : bool :=
  match counts !! key with
  | Some c => bool_decide (threshold ≤ c)
  | None => false
  end.

(** [if (!buf[key]) buf[key] = []]: a bucket is truthy, and so is what
    an inherited name gives. *)
Definition ensure_bucket (key : string) (buf : Buffer) : Buffer :=
  match buf !! key with
  | Some _ => buf
  | None => if inherited key then buf else <[key := []]> buf
  end.

(** The bucket under [key] read as a list; an absent bucket holds no
    message. *)
Definition bucket (key : string) (buf : Buffer) : list Msg :=
  default [] (buf !! key).

(** The body of the loop of lines 211-215.  Under the guard the key
    [msg.value.toString()] is ["0"] or ["1"], according to which of its
    two tests holds. *)
Definition countPhaseOne (counts : gmap string Z) (msg : Msg) : gmap string Z :=
  if strict_eq (msg_value msg) (JNum 0) then increment (toString V0) counts
  else if strict_eq (msg_value msg) (JNum 1) then increment (toString V1) counts
  else counts.

(** The body of the loop of lines 247-251, with the key
    [msg.value.toString()] read off the test of the guard that holds. *)
Definition countPhaseTwo (counts : gmap string Z) (msg : Msg) : gmap string Z :=
  if strict_eq (msg_value msg) (JNum 0) then increment (toString V0) counts
  else if strict_eq (msg_value msg) (JNum 1) then increment (toString V1) counts
  else if strict_eq (msg_value msg) (JStr "?") then increment (toString VQ) counts
  else counts.

(** Lines 203-215: the counts of phase 1. *)
Definition phaseOneCounts (own : option Value) (messages : list Msg) : gmap string Z :=
  let counts : gmap string Z := <["0" := 0]> (<["1" := 0]> ∅) in
  let counts :=
    match own with
    | Some V0 => increment (toString V0) counts
    | Some V1 => increment (toString V1) counts
    | _ => counts
    end in
  foldl countPhaseOne counts messages.

(** Lines 239-251: the counts of phase 2. *)
Definition phaseTwoCounts (own : option Value) (messages : list Msg) : gmap string Z :=
  let counts : gmap string Z := <["0" := 0]> (<["1" := 0]> (<["?" := 0]> ∅)) in
  let counts :=
    match own with
    | Some v => increment (toString v) counts
    | None => counts
    end in
  foldl countPhaseTwo counts messages.

(** Lines 217-226. *)
Definition phaseOneOutcome (cfg : Config) (counts : gmap string Z) : Value :=
  let majority := N cfg / 2 + 1 in
  if reaches counts "0" majority then V0
  else if reaches counts "1" majority then V1
  else VQ.

(** Lines 194-227.  The name of [currentK], a number or [null], is
    never an inherited one (lemma [keyOf_own]), so [messages] is the
    bucket. *)
Definition processPhaseOneMessages (cfg : Config) (n : Node) : Node :=
  if killed (state n) then n
  else
    let currentK := keyOf (k (state n)) in
    let n := set_phaseOneMessages (ensure_bucket currentK (phaseOneMessages n)) n in
    let messages := bucket currentK (phaseOneMessages n) in
    let counts := phaseOneCounts (x (state n)) messages in
    set_state (set_x (Some (phaseOneOutcome cfg counts)) (state n)) n.

(** Lines 253-274; [coin] is the outcome of [Math.random() < 0.5]. *)
Definition phaseTwoOutcome (cfg : Config) (coin : bool)
    (counts : gmap string Z) (st : State) : State :=
  let nonFaultyNodes := N cfg - F cfg in
  let decisionThreshold := nonFaultyNodes / 2 + 1 in
  let adoptionThreshold := nonFaultyNodes / 3 + 1 in
  if reaches counts "0" decisionThreshold && bool_decide (x st = Some V0)
  then set_decided (Some true) st
  else if reaches counts "1" decisionThreshold && bool_decide (x st = Some V1)
  then set_decided (Some true) st
  else if reaches counts "0" adoptionThreshold then set_x (Some V0) st
  else if reaches counts "1" adoptionThreshold then set_x (Some V1) st
  else set_x (Some (if coin then V0 else V1)) st.

(** Lines 230-275. *)
Definition processPhaseTwoMessages (cfg : Config) (coin : bool) (n : Node) : Node :=
  if killed (state n) then n
  else
    let currentK := keyOf (k (state n)) in
    let n := set_phaseTwoMessages (ensure_bucket currentK (phaseTwoMessages n)) n in
    let messages := bucket currentK (phaseTwoMessages n) in
    let counts := phaseTwoCounts (x (state n)) messages in
    set_state (phaseTwoOutcome cfg coin counts (state n)) n.

(** ** Request handlers *)

Inductive Payload :=
| PText (s : string)
| PSuccess
| PError (s : string)
| PState (st : State)
| PCrash.
    (* the error page Express sends when a handler throws *)

Record Response := mkResponse { status : Z; payload : Payload }.

Inductive Request :=
| GetStatus
| PostMessage (b : Body)
| GetStart
| GetStop
| GetGetState.

(** What a resumed activation reads from its environment:
    [Date.now() - startTime < maxWaitTime] and [Math.random() < 0.5]. *)
Record Oracle := mkOracle { timeLeft : bool; randomLow : bool }.

(** Lines 53-56 (and 58-61): create the bucket if needed, then [push].
    When [key] is an inherited name and no bucket, nothing is created
    and [buf[key].push] is no function: the call throws, [None]. *)
Definition push (key : string) (m : Msg) (buf : Buffer) : option Buffer :=
  let buf := ensure_bucket key buf in
  match buf !! key with
  | Some l => Some (<[key := l ++ [m]]> buf)
  | None => None
  end.

(** Lines 35-41. *)
Definition statusHandler (cfg : Config) (n : Node) : Node * Response :=
  if isFaulty cfg then (n, mkResponse 500 (PText "faulty"))
  else (n, mkResponse 200 (PText "live")).

(** Lines 44-65.  A handler that throws leaves the closure as it is
    and Express answers 500. *)
Definition messageHandler (cfg : Config) (b : Body) (n : Node) : Node * Response :=
  if killed (state n) || isFaulty cfg
  then (n, mkResponse 500 (PError "Node is dead or faulty"))
  else
    let entry := mkMsg (body_value b) (body_from b) in
    let key := propertyName (body_k b) in
    if strict_eq (body_phase b) (JNum 1)
    then
      match push key entry (phaseOneMessages n) with
      | Some buf => (set_phaseOneMessages buf n, mkResponse 200 PSuccess)
      | None => (n, mkResponse 500 PCrash)
      end
    else if strict_eq (body_phase b) (JNum 2)
    then
      match push key entry (phaseTwoMessages n) with
      | Some buf => (set_phaseTwoMessages buf n, mkResponse 200 PSuccess)
      | None => (n, mkResponse 500 PCrash)
      end
    else (n, mkResponse 200 PSuccess).

(** ** The consensus loop

    An activation of [startConsensus] runs from one [await] to the next
    without interleaving; each function below runs the code from the
    point its name says up to the next suspension and returns the
    closure then together with that suspension, or [None] when the
    activation has returned. *)

(** Lines 148-173, up to the [await]: one request per peer [i ≠ nodeId]. *)
Definition broadcastMessage (cfg : Config) (phase : Z)
    (value : option Value) (round : option Z) (n : Node) : Node :=
  let body :=
    mkBody (JNum phase) (to_wire value) (roundWire round) (JNum (nodeId cfg)) in
  let peers := filter (λ i, i ≠ nodeId cfg) (seqZ 0 (N cfg)) in
  set_outbox (outbox n ++ ((λ i, (i, body)) <$> peers)) n.

(** Lines 107-113. *)
Definition roundEnd (n : Node) : Node * option PC :=
  let n :=
    if negb (truthy (decided (state n))) && negb (killed (state n))
    then set_state (set_k (Some (default 0 (k (state n)) + 1)) (state n)) n
    else n in
  (n, Some AwaitRoundDelay).

(** Lines 133-138, then the rest of the round when phase 2 is skipped. *)
Definition runPhaseTwo (cfg : Config) (n : Node) : Node * option PC :=
  if killed (state n) || truthy (decided (state n)) then roundEnd n
  else (broadcastMessage cfg 2 (x (state n)) (k (state n)) n,
        Some (AwaitBroadcast PhaseTwo)).

(** What follows the return of [waitForMessages]: lines 129 and 105,
    or lines 144 and 107. *)
Definition afterWait (cfg : Config) (o : Oracle) (ph : Phase) (n : Node)
    : Node * option PC :=
  match ph with
  | PhaseOne => runPhaseTwo cfg (processPhaseOneMessages cfg n)
  | PhaseTwo => roundEnd (processPhaseTwoMessages cfg (randomLow o) n)
  end.

(** Line 180. *)
Definition messagesOf (ph : Phase) (n : Node) : Buffer :=
  match ph with
  | PhaseOne => phaseOneMessages n
  | PhaseTwo => phaseTwoMessages n
  end.

(** The condition of the loop of lines 184-187. *)
Definition keepWaiting (cfg : Config) (o : Oracle) (ph : Phase)
    (currentK : option Z) (n : Node) : bool :=
  timeLeft o &&
  match messagesOf ph n !! keyOf currentK with
  | None => true
  | Some l => bool_decide (Z.of_nat (length l) < N cfg - F cfg - 1)
  end.

(** One test of the loop condition of [waitForMessages]. *)
Definition pollMessages (cfg : Config) (o : Oracle) (ph : Phase)
    (currentK : option Z) (n : Node) : Node * option PC :=
  if keepWaiting cfg o ph currentK n then (n, Some (AwaitPoll ph currentK))
  else afterWait cfg o ph n.

(** Lines 176-191 from the top. *)
Definition waitForMessages (cfg : Config) (o : Oracle) (ph : Phase) (n : Node)
    : Node * option PC :=
  pollMessages cfg o ph (k (state n)) n.

(** Lines 118-123, then line 105 when phase 1 is skipped. *)
Definition runPhaseOne (cfg : Config) (n : Node) : Node * option PC :=
  if killed (state n) || truthy (decided (state n)) then runPhaseTwo cfg n
  else (broadcastMessage cfg 1 (x (state n)) (k (state n)) n,
        Some (AwaitBroadcast PhaseOne)).

(** Line 103: the test of the round loop. *)
Definition roundLoop (cfg : Config) (n : Node) : Node * option PC :=
  if negb (truthy (decided (state n))) && negb (killed (state n))
  then runPhaseOne cfg n
  else (n, None).

(** Lines 96-115 from the top. *)
Definition startConsensus (cfg : Config) (n : Node) : Node * option PC :=
  if bool_decide (N cfg = 1) && negb (isFaulty cfg)
  then (set_state (set_decided (Some true) (state n)) n, None)
  else roundLoop cfg n.

(** An activation suspended at [pc] is resumed. *)
Definition resume (cfg : Config) (o : Oracle) (pc : PC) (n : Node)
    : Node * option PC :=
  match pc with
  | AwaitBroadcast ph => waitForMessages cfg o ph n
  | AwaitPoll ph currentK =>
      if killed (state n) then afterWait cfg o ph n
      else pollMessages cfg o ph currentK n
  | AwaitRoundDelay => roundLoop cfg n
  end.

(** Lines 68-81. *)
Definition startHandler (cfg : Config) (n : Node) : Node * Response :=
  if isFaulty cfg || killed (state n)
  then (n, mkResponse 500 (PError "Node is faulty or killed"))
  else
    let n :=
      if consensusRunning n then n
      else
        let r := startConsensus cfg (set_consensusRunning true n) in
        set_tasks (tasks r.1 ++ option_list r.2) r.1 in
    (n, mkResponse 200 PSuccess).

(** Lines 84-88. *)
Definition stopHandler (n : Node) : Node * Response :=
  let n := set_state (set_killed true (state n)) n in
  let n := set_consensusRunning false n in
  (n, mkResponse 200 PSuccess).

(** Lines 91-93. *)
Definition getStateHandler (n : Node) : Node * Response :=
  (n, mkResponse 200 (PState (state n))).

Definition handle (cfg : Config) (r : Request) (n : Node) : Node * Response :=
  match r with
  | GetStatus => statusHandler cfg n
  | PostMessage b => messageHandler cfg b n
  | GetStart => startHandler cfg n
  | GetStop => stopHandler n
  | GetGetState => getStateHandler n
  end.

(** ** Executions

    The node is driven by the requests it serves and by the wake-ups of
    its suspended activations, one at a time. *)
Inductive Event :=
| Req (r : Request)
| Resume (i : nat) (o : Oracle).

Definition step (cfg : Config) (n : Node) (ev : Event) : Node :=
  match ev with
  | Req r => (handle cfg r n).1
  | Resume i o =>
      match tasks n !! i with
      | None => n
      | Some pc =>
          let r := resume cfg o pc n in
          match r.2 with
          | Some pc' => set_tasks (<[i := pc']> (tasks r.1)) r.1
          | None => set_tasks (delete i (tasks r.1)) r.1
          end
      end
  end.

Definition run (cfg : Config) (evs : list Event) (n : Node) : Node :=
  foldl (step cfg) n evs.

Definition reachable (cfg : Config) (n : Node) : Prop :=
  ∃ evs, n = run cfg evs (init cfg).

(** ** The tallies as the specification words them *)

(** How many of [messages] carry the value [v]. *)
Definition occurrences (v : JSON) (messages : list Msg) : Z :=
  Z.of_nat (length (filter (λ m, msg_value m = v) messages)).

(** The node's own value counts once, for the value it is. *)
Definition ownCount (v : Value) (own : option Value) : Z :=
  if bool_decide (own = Some v) then 1 else 0.

(** [count[v]] over the node's own value and the received ones. *)
Definition count (v : Value) (own : option Value) (messages : list Msg) : Z :=
  ownCount v own + occurrences (to_wire (Some v)) messages.

Definition majority (cfg : Config) : Z := N cfg / 2 + 1.
Definition decisionThreshold (cfg : Config) : Z := (N cfg - F cfg) / 2 + 1.
Definition adoptionThreshold (cfg : Config) : Z := (N cfg - F cfg) / 3 + 1.

(** Phase-1 tally: the next [x]. *)
Definition phaseOneTally (cfg : Config) (own : option Value)
    (messages : list Msg) : Value :=
  if bool_decide (majority cfg ≤ count V0 own messages) then V0
  else if bool_decide (majority cfg ≤ count V1 own messages) then V1
  else VQ.

(** Phase-2 tally: whether the node decides, and the next [x]. *)
Inductive Verdict :=
| Decide
| Adopt (v : Value).

Definition phaseTwoTally (cfg : Config) (coin : bool) (own : option Value)
    (messages : list Msg) : Verdict :=
  if bool_decide (decisionThreshold cfg ≤ count V0 own messages ∧ own = Some V0)
  then Decide
  else if bool_decide (decisionThreshold cfg ≤ count V1 own messages ∧ own = Some V1)
  then Decide
  else if bool_decide (adoptionThreshold cfg ≤ count V0 own messages) then Adopt V0
  else if bool_decide (adoptionThreshold cfg ≤ count V1 own messages) then Adopt V1
  else Adopt (if coin then V0 else V1).

Definition applyVerdict (v : Verdict) (st : State) : State :=
  match v with
  | Decide => set_decided (Some true) st
  | Adopt w => set_x (Some w) st
  end.

(** A message whose value is one of the two the rules of phase 2 read. *)
Definition binaryMsg (m : Msg) : Prop :=
  msg_value m = JNum 0 ∨ msg_value m = JNum 1.

#[global] Instance binaryMsg_dec m : Decision (binaryMsg m).
Proof. unfold binaryMsg. apply _. Defined.

(** A body of the shape [{phase: 1|2, value: 0|1|"?", k: int, from: int}]. *)
Definition wellFormed (b : Body) : bool :=
  (strict_eq (body_phase b) (JNum 1) || strict_eq (body_phase b) (JNum 2))
  && (strict_eq (body_value b) (JNum 0) || strict_eq (body_value b) (JNum 1)
      || strict_eq (body_value b) (JStr "?"))
  && match body_k b with JNum _ => true | _ => false end
  && match body_from b with JNum _ => true | _ => false end.


(** ** Invariants of the executions of a non-faulty node *)

Definition binary (v : option Value) : Prop := v = Some V0 ∨ v = Some V1.

(** What holds of the state while an activation is suspended at [pc]. *)
Definition suspendedAt (st : State) (pc : PC) : Prop :=
  match pc with
  | AwaitBroadcast PhaseOne | AwaitPoll PhaseOne _ =>
      decided st = Some false ∧ binary (x st)
  | AwaitBroadcast PhaseTwo | AwaitPoll PhaseTwo _ =>
      decided st = Some false
  | AwaitRoundDelay =>
      killed st = true ∨ binary (x st)
  end.

(** The state of a non-faulty node has no [null] field. *)
Definition concrete (st : State) : Prop :=
  is_Some (x st) ∧ is_Some (decided st) ∧ is_Some (k st).

Definition invariant (cfg : Config) (n : Node) : Prop :=
  concrete (state n)
  ∧ (consensusRunning n = false → killed (state n) = false →
       tasks n = [] ∧ state n = state (init cfg))
  ∧ (tasks n = []
     ∨ ∃ pc, tasks n = [pc] ∧ suspendedAt (state n) pc
             ∧ (decided (state n) = Some true → pc = AwaitRoundDelay))
  ∧ (decided (state n) = Some true → binary (x (state n))).

(** What a run of the loop from one suspension to the next never
    touches. *)
Definition sameControl (n n' : Node) : Prop :=
  tasks n' = tasks n
  ∧ consensusRunning n' = consensusRunning n
  ∧ killed (state n') = killed (state n).

(** What a run of the loop establishes when it suspends or returns. *)
Definition wellSuspended (r : Node * option PC) : Prop :=
  concrete (state r.1)
  ∧ (decided (state r.1) = Some true → binary (x (state r.1)))
  ∧ ∀ pc, r.2 = Some pc →
      suspendedAt (state r.1) pc
      ∧ (decided (state r.1) = Some true → pc = AwaitRoundDelay).

(** No request in [evs] is a [/stop]. *)
Definition noStop (evs : list Event) : Prop :=
  Forall (λ ev, ev ≠ Req GetStop) evs.

(** The suspensions of phase 1: from the start of a round to its
    phase-1 tally. *)
Definition inPhaseOne (pc : PC) : Prop :=
  match pc with
  | AwaitBroadcast PhaseOne | AwaitPoll PhaseOne _ => True
  | _ => False
  end.

(** What [/getState] shows of a node that decided alone. *)
Definition decidedAlone (cfg : Config) : State :=
  mkState false (Some (initialValue cfg)) (Some true) (Some 0).

(** A lone node at rest: no activation is suspended and nothing was
    sent; it was not started yet, or it was and has decided. *)
Definition atRest (cfg : Config) (n : Node) : Prop :=
  tasks n = [] ∧ outbox n = []
  ∧ ((consensusRunning n = false ∧ state n = state (init cfg))
     ∨ (consensusRunning n = true ∧ state n = decidedAlone cfg)).

(** ** Further notions for the executions *)

(** Every bucket of [buf'] starts with the bucket of [buf] of the same
    round: entries were added at the end, none removed or changed. *)
Definition extends (buf buf' : Buffer) : Prop :=
  ∀ key, bucket key buf `prefix_of` bucket key buf'.

(** The suspensions of phase 2. *)
Definition inPhaseTwo (pc : PC) : Prop :=
  match pc with
  | AwaitBroadcast PhaseTwo | AwaitPoll PhaseTwo _ => True
  | _ => False
  end.

(** The two buffers hold the same messages, bucket by bucket; one may
    have empty buckets where the other has none. *)
Definition sameBuckets (buf buf' : Buffer) : Prop :=
  ∀ key, bucket key buf' = bucket key buf.

(** What any run of the loop between two suspensions leaves in place. *)
Definition grows (n n' : Node) : Prop :=
  tasks n' = tasks n
  ∧ consensusRunning n' = consensusRunning n
  ∧ killed (state n') = killed (state n)
  ∧ sameBuckets (phaseOneMessages n) (phaseOneMessages n')
  ∧ sameBuckets (phaseTwoMessages n) (phaseTwoMessages n')
  ∧ outbox n `prefix_of` outbox n'.

(** A request the node may send to a peer: to another node of the
    network, well formed, signed with [nodeId], and with 0 or 1 for
    value when it is of phase 1. *)
Definition sendable (cfg : Config) (e : Z * Body) : Prop :=
  0 ≤ e.1 < N cfg ∧ e.1 ≠ nodeId cfg
  ∧ wellFormed e.2 = true
  ∧ body_from e.2 = JNum (nodeId cfg)
  ∧ (body_phase e.2 = JNum 1 →
       body_value e.2 = JNum 0 ∨ body_value e.2 = JNum 1).

(** The invariant of the executions in which no message is delivered. *)
Definition unheard (n : Node) : Prop :=
  decided (state n) = Some false
  ∧ (∀ key, bucket key (phaseOneMessages n) = [])
  ∧ (∀ key, bucket key (phaseTwoMessages n) = [])
  ∧ (consensusRunning n = false → killed (state n) = false → tasks n = [])
  ∧ (tasks n = []
     ∨ ∃ pc, tasks n = [pc] ∧ (inPhaseTwo pc → x (state n) = Some VQ)).

(** How many suspensions of the round still lie ahead of [pc], the
    pause between rounds being the last. *)
Definition waitRank (pc : PC) : nat :=
  match pc with
  | AwaitBroadcast PhaseOne => 4
  | AwaitPoll PhaseOne _ => 3
  | AwaitBroadcast PhaseTwo => 2
  | AwaitPoll PhaseTwo _ => 1
  | AwaitRoundDelay => 0
  end.

(** Round [r] is over: the node has decided, or [k] is beyond [r]. *)
Definition pastRound (r : Z) (st : State) : Prop :=
  decided st = Some true ∨ ∃ r', k st = Some r' ∧ r < r'.

(** A live node that is past round [r], or in it with at most [m]
    suspensions ahead. *)
Definition inRound (r : Z) (m : nat) (n : Node) : Prop :=
  killed (state n) = false
  ∧ (pastRound r (state n)
     ∨ (decided (state n) = Some false ∧ k (state n) = Some r
        ∧ ∃ pc, tasks n = [pc] ∧ pc ≠ AwaitRoundDelay
                ∧ (waitRank pc ≤ m)%nat)).

(** The oracles of [os] that find the time of the wait out. *)
Definition timedOuts (os : list Oracle) : list Oracle :=
  filter (λ o, timeLeft o = false) os.

(** No buffer has a bucket under a name that objects inherit. *)
Definition ownBuckets (buf : Buffer) : Prop :=
  ∀ key, inherited key = true → buf !! key = None.

(** A buffer after the delivery of [m] under [key]: as it was when
    [push] throws. *)
Definition delivered (key : string) (m : Msg) (buf : Buffer) : Buffer :=
  default buf (push key m buf).

(** The round number stays or goes up by one ([null] counts as 0 in
    [state.k + 1]). *)
Definition advances (st st' : State) : Prop :=
  k st' = k st ∨ k st' = Some (default 0 (k st) + 1).

(** No request in [evs] is a [/message]. *)
Definition noDelivery (evs : list Event) : Prop :=
  Forall (λ ev, ∀ b, ev ≠ Req (PostMessage b)) evs.

(** ** Scenarios *)

(** Node 0 of three nodes, none faulty, that all start from 1. *)
Definition threeNodes : Config := mkConfig 0 3 0 V1 false.

(** A message of round 0 from a peer. *)
Definition peerMessage (phase : Z) (v : Z) (sender : Z) : Event :=
  Req (PostMessage (mkBody (JNum phase) (JNum v) (JNum 0) (JNum sender))).

(** Both exchanges of round 0 complete and the node decides. *)
Definition decidingRun : list Event :=
  [ Req GetStart;
    peerMessage 1 1 1; peerMessage 1 1 2;
    Resume 0%nat (mkOracle true true);
    peerMessage 2 1 1; peerMessage 2 1 2;
    Resume 0%nat (mkOracle true true) ].

(** A lone node that starts from 0. *)
Definition oneNode : Config := mkConfig 0 1 0 V0 false.

(** Node 0 of [threeNodes] holding, for round 0 of phase [ph], the
    bucket [messages]. *)
Definition holding (ph : Phase) (messages : list Msg) : Node :=
  match ph with
  | PhaseOne =>
      set_phaseOneMessages (<[keyOf (Some 0) := messages]> ∅)
        (init threeNodes)
  | PhaseTwo =>
      set_phaseTwoMessages (<[keyOf (Some 0) := messages]> ∅)
        (init threeNodes)
  end.

(** A body whose value is none of 0, 1 and "?". *)
Definition strayBody : Body := mkBody (JNum 1) (JNum 7) (JNum 0) (JNum 1).

(** Buckets of round 0 as node 0 of [threeNodes] may hold them. *)
Definition fromPeer (v : JSON) (sender : Z) : Msg := mkMsg v (JNum sender).

Definition agreeing : list Msg := [fromPeer (JNum 1) 1; fromPeer (JNum 1) 2].

Definition divided : list Msg := [fromPeer (JNum 1) 1; fromPeer (JNum 0) 2].

Definition noisy : list Msg :=
  [fromPeer (JStr "?") 1; fromPeer (JNum 1) 2; fromPeer (JNum 7) 1;
   fromPeer JNull 2; fromPeer (JStr "?") 2].

Definition quiet : list Msg := [fromPeer (JNum 1) 2].

(** What may follow [decidingRun]. *)
Definition afterDecision : list Event :=
  [ peerMessage 1 0 1; Req GetStart;
    Resume 0%nat (mkOracle true false);
    peerMessage 2 0 2; Req GetGetState; Req GetStop;
    Resume 0%nat (mkOracle false false) ].

(** What may precede the [/start] of a lone node. *)
Definition earlyRun : list Event :=
  [ Req GetGetState; peerMessage 2 0 3; Resume 0%nat (mkOracle true true) ].

(** What may follow the [/start] of a lone node. *)
Definition aloneRun : list Event :=
  [ peerMessage 1 1 5; Req GetStart; Req GetStatus;
    Resume 0%nat (mkOracle true true); Req GetGetState ].

(** A faulty node among four, and what it may be asked. *)
Definition faultyNode : Config := mkConfig 3 4 1 V0 true.

Definition faultyRun : list Event :=
  [ Req GetStart; peerMessage 1 0 0; Resume 0%nat (mkOracle true true);
    Req GetStop; Req GetStart; peerMessage 2 0 1 ].

(** A wait that has run out of time. *)
Definition timedOut : Oracle := mkOracle false false.

(** A round in which node 0 of [threeNodes] hears nobody. *)
Definition lonelyRun : list Event :=
  [ Req GetStart; Resume 0%nat timedOut; Resume 0%nat timedOut;
    Req GetGetState; Resume 0%nat timedOut ].

(** The wake-ups of a round in which nobody answers: each wait starts
    with time left and ends on a poll that finds the time out. *)
Definition silentRound : list Oracle :=
  [ mkOracle true true; timedOut; mkOracle true false; timedOut;
    mkOracle true true; mkOracle true true; timedOut; timedOut ].

(** A body whose [k] names a method every object inherits. *)
Definition namedBody : Body :=
  mkBody (JNum 1) (JNum 0) (JStr "constructor") (JNum 1).

(** [divided] in another order and from other senders. *)
Definition shuffled : list Msg := [fromPeer (JNum 0) 1; fromPeer (JNum 1) 5].

(** Both peers on 0. *)
Definition opposed : list Msg := [fromPeer (JNum 0) 1; fromPeer (JNum 0) 2].

(** ** Checks on concrete inputs *)

Example decidingRun_state :
  state (run threeNodes decidingRun (init threeNodes))
  = mkState false (Some V1) (Some true) (Some 0).
Proof. vm_compute. reflexivity. Qed.

Example decidingRun_tasks :
  tasks (run threeNodes decidingRun (init threeNodes)) = [AwaitRoundDelay].
Proof. vm_compute. reflexivity. Qed.

Example decidingRun_exits :
  tasks (run threeNodes (decidingRun ++ [Resume 0%nat (mkOracle true true)])
           (init threeNodes)) = [].
Proof. vm_compute. reflexivity. Qed.

Example lonely_round :
  let n := run threeNodes
             [Req GetStart; Resume 0%nat (mkOracle false false);
              Resume 0%nat (mkOracle false false)] (init threeNodes) in
  state n = mkState false (Some V1) (Some false) (Some 1)
  ∧ tasks n = [AwaitRoundDelay]
  ∧ length (outbox n) = 4%nat.
Proof. vm_compute. repeat split; reflexivity. Qed.

(** ** Counting *)

Lemma occurrences_nil v : occurrences v [] = 0.
Proof. reflexivity. Qed.

Lemma occurrences_cons v m ms :
  occurrences v (m :: ms)
  = (if decide (msg_value m = v) then 1 else 0) + occurrences v ms.
Proof.
  unfold occurrences. rewrite filter_cons.
  destruct (decide (msg_value m = v)); simpl; lia.
Qed.

Lemma increment_lookup key key' (counts : gmap string Z) :
  increment key counts !! key'
  = if decide (key = key') then (λ c, c + 1) <$> counts !! key'
    else counts !! key'.
Proof.
  unfold increment. rewrite lookup_alter.
  destruct (decide (key = key')); subst; reflexivity.
Qed.

Lemma shift_zero (o : option Z) : (λ c, c + 0) <$> o = o.
Proof. destruct o; simpl; [f_equal; lia | reflexivity]. Qed.

Lemma shift_shift (a b : Z) (o : option Z) :
  (λ c, c + b) <$> ((λ c, c + a) <$> o) = (λ c, c + (a + b)) <$> o.
Proof. destruct o; simpl; [f_equal; lia | reflexivity]. Qed.

(** One turn of the loop of phase 1 adds one to the count of the value
    the message carries, and to no other. *)
Lemma countPhaseOne_lookup v counts m :
  v ≠ VQ →
  countPhaseOne counts m !! toString v
  = (λ c, c + (if decide (msg_value m = to_wire (Some v)) then 1 else 0))
      <$> counts !! toString v.
Proof.
  intros Hv. unfold countPhaseOne, strict_eq.
  destruct m as [w f]; simpl.
  repeat case_bool_decide; subst; rewrite ?increment_lookup;
    destruct v; simpl; try congruence;
    repeat case_decide; try congruence; auto using shift_zero, eq_sym.
Qed.

Lemma countPhaseTwo_lookup v counts m :
  countPhaseTwo counts m !! toString v
  = (λ c, c + (if decide (msg_value m = to_wire (Some v)) then 1 else 0))
      <$> counts !! toString v.
Proof.
  unfold countPhaseTwo, strict_eq.
  destruct m as [w f]; simpl.
  repeat case_bool_decide; subst; rewrite ?increment_lookup;
    destruct v; simpl; try congruence;
    repeat case_decide; try congruence; auto using shift_zero, eq_sym.
Qed.

Lemma foldl_countPhaseOne v messages counts :
  v ≠ VQ →
  foldl countPhaseOne counts messages !! toString v
  = (λ c, c + occurrences (to_wire (Some v)) messages) <$> counts !! toString v.
Proof.
  intros Hv. revert counts.
  induction messages as [|m ms IH]; intros counts; simpl.
  - rewrite occurrences_nil. symmetry. apply shift_zero.
  - rewrite IH, countPhaseOne_lookup, shift_shift, occurrences_cons by done.
    reflexivity.
Qed.

Lemma foldl_countPhaseTwo v messages counts :
  foldl countPhaseTwo counts messages !! toString v
  = (λ c, c + occurrences (to_wire (Some v)) messages) <$> counts !! toString v.
Proof.
  revert counts.
  induction messages as [|m ms IH]; intros counts; simpl.
  - rewrite occurrences_nil. symmetry. apply shift_zero.
  - rewrite IH, countPhaseTwo_lookup, shift_shift, occurrences_cons.
    reflexivity.
Qed.

(** The counts the code builds are the counts of the specification. *)
Lemma phaseOneCounts_lookup v own messages :
  v ≠ VQ →
  phaseOneCounts own messages !! toString v = Some (count v own messages).
Proof.
  intros Hv. unfold phaseOneCounts, count, ownCount.
  rewrite foldl_countPhaseOne by done.
  destruct own as [[]|], v; try congruence;
    rewrite ?increment_lookup; simpl; reflexivity.
Qed.

Lemma phaseTwoCounts_lookup v own messages :
  phaseTwoCounts own messages !! toString v = Some (count v own messages).
Proof.
  unfold phaseTwoCounts, count, ownCount.
  rewrite foldl_countPhaseTwo.
  destruct own as [[]|], v;
    rewrite ?increment_lookup; simpl; reflexivity.
Qed.

(** Phase 1 keeps no count of "?". *)
Lemma phaseOneCounts_unasked own messages :
  phaseOneCounts own messages !! "?" = None.
Proof.
  unfold phaseOneCounts.
  assert (∀ counts : gmap string Z,
            counts !! "?" = None →
            foldl countPhaseOne counts messages !! "?" = None) as Hfold.
  { induction messages as [|m ms IH]; intros counts Hc; simpl; [done|].
    apply IH. unfold countPhaseOne.
    repeat case_match; rewrite ?increment_lookup; simpl; done. }
  apply Hfold. destruct own as [[]|]; rewrite ?increment_lookup; simpl; done.
Qed.

Lemma reaches_phaseOneCounts v own messages t :
  v ≠ VQ →
  reaches (phaseOneCounts own messages) (toString v) t
  = bool_decide (t ≤ count v own messages).
Proof. intros Hv. unfold reaches. by rewrite phaseOneCounts_lookup. Qed.

Lemma reaches_phaseTwoCounts v own messages t :
  reaches (phaseTwoCounts own messages) (toString v) t
  = bool_decide (t ≤ count v own messages).
Proof. unfold reaches. by rewrite phaseTwoCounts_lookup. Qed.

Lemma bucket_ensure (key : string) (buf : Buffer) :
  bucket key (ensure_bucket key buf) = bucket key buf.
Proof.
  unfold bucket, ensure_bucket.
  destruct (buf !! key) as [l|] eqn:E.
  - by rewrite E.
  - destruct (inherited key); [by rewrite E | by rewrite lookup_insert_eq].
Qed.

(** ** The two tallies *)

(** C2.  Phase-1 tally: on a node that is not killed, the tally leaves
    every field of the state but [x] as it was, and sets [x] to what the
    specification computes from the node's own value and the phase-1
    messages of the current round: with the counts of 0 and of 1 taken
    over the own value (when it is 0 or 1) and the received values that
    are 0 or 1, and [majority = N / 2 + 1] rounded down, the next [x] is
    0 if [count 0 >= majority], else 1 if [count 1 >= majority], else
    "?". *)
Theorem phase_one_tally_correct (cfg : Config) (n : Node) :
  killed (state n) = false →
  let own := x (state n) in
  let messages := bucket (keyOf (k (state n))) (phaseOneMessages n) in
  phaseOneCounts own messages !! "0" = Some (count V0 own messages)
  ∧ phaseOneCounts own messages !! "1" = Some (count V1 own messages)
  ∧ phaseOneCounts own messages !! "?" = None
  ∧ state (processPhaseOneMessages cfg n)
    = set_x (Some (phaseOneTally cfg own messages)) (state n).
Proof.
  intros Hk own messages.
  split; [by apply (phaseOneCounts_lookup V0)|].
  split; [by apply (phaseOneCounts_lookup V1)|].
  split; [apply phaseOneCounts_unasked|].
  unfold processPhaseOneMessages. rewrite Hk. simpl.
  rewrite bucket_ensure. f_equal. f_equal.
  unfold phaseOneOutcome, phaseOneTally, majority.
  rewrite (reaches_phaseOneCounts V0), (reaches_phaseOneCounts V1) by done.
  reflexivity.
Qed.

(** C1.  Phase-2 tally: on a node that is not killed, the tally builds
    the counts over 0, 1 and "?" with the own value included, takes
    [decisionThreshold = (N - F) / 2 + 1] and
    [adoptionThreshold = (N - F) / 3 + 1] rounded down, and applies the
    first rule that matches: it decides, leaving [x] as it is, when
    [count 0 >= decisionThreshold] and the own value is 0, else when
    [count 1 >= decisionThreshold] and the own value is 1; otherwise it
    sets [x] to 0 if [count 0 >= adoptionThreshold], else to 1 if
    [count 1 >= adoptionThreshold], else to the coin. *)
Theorem phase_two_tally_correct (cfg : Config) (coin : bool) (n : Node) :
  killed (state n) = false →
  let own := x (state n) in
  let messages := bucket (keyOf (k (state n))) (phaseTwoMessages n) in
  (∀ v, phaseTwoCounts own messages !! toString v = Some (count v own messages))
  ∧ state (processPhaseTwoMessages cfg coin n)
    = applyVerdict (phaseTwoTally cfg coin own messages) (state n)
  ∧ (phaseTwoTally cfg coin own messages = Decide ↔
       (decisionThreshold cfg ≤ count V0 own messages ∧ own = Some V0)
       ∨ (decisionThreshold cfg ≤ count V1 own messages ∧ own = Some V1)).
Proof.
  intros Hk own messages. split; [|split].
  - intros v. apply phaseTwoCounts_lookup.
  - unfold processPhaseTwoMessages. rewrite Hk. simpl.
    rewrite bucket_ensure. fold own messages.
    unfold phaseTwoOutcome, phaseTwoTally, decisionThreshold, adoptionThreshold.
    rewrite !(reaches_phaseTwoCounts V0), !(reaches_phaseTwoCounts V1).
    fold own.
    repeat case_bool_decide; simpl; try reflexivity; exfalso; tauto.
  - unfold phaseTwoTally.
    repeat case_bool_decide; split; try tauto; try discriminate.
Qed.

(** ** The loop between two suspensions *)

Lemma processPhaseOne_frame cfg n :
  let n' := processPhaseOneMessages cfg n in
  sameControl n n'
  ∧ decided (state n') = decided (state n)
  ∧ k (state n') = k (state n)
  ∧ (is_Some (x (state n)) → is_Some (x (state n'))).
Proof.
  unfold processPhaseOneMessages, sameControl.
  destruct (killed (state n)) eqn:Hk; simpl; rewrite ?Hk; eauto 10.
Qed.

Lemma phaseTwoOutcome_cases cfg coin counts st :
  let st' := phaseTwoOutcome cfg coin counts st in
  killed st' = killed st ∧ k st' = k st
  ∧ ((decided st' = Some true ∧ x st' = x st ∧ binary (x st))
     ∨ (decided st' = decided st ∧ binary (x st'))).
Proof.
  unfold phaseTwoOutcome, binary.
  repeat (case_match; simplify_eq/=);
    repeat match goal with
           | H : _ && _ = true |- _ => apply andb_true_iff in H as [? ?]
           | H : bool_decide _ = true |- _ => apply bool_decide_eq_true in H
           end;
    eauto 10.
Qed.

Lemma processPhaseTwo_frame cfg coin n :
  let n' := processPhaseTwoMessages cfg coin n in
  sameControl n n'
  ∧ k (state n') = k (state n)
  ∧ (killed (state n) = true → state n' = state n)
  ∧ (killed (state n) = false →
       (decided (state n') = Some true ∧ x (state n') = x (state n)
        ∧ binary (x (state n)))
       ∨ (decided (state n') = decided (state n) ∧ binary (x (state n')))).
Proof.
  unfold processPhaseTwoMessages, sameControl.
  destruct (killed (state n)) eqn:Hk; simpl.
  - rewrite Hk. repeat split; auto; discriminate.
  - match goal with
    | |- context [phaseTwoOutcome cfg coin ?c ?st] =>
        destruct (phaseTwoOutcome_cases cfg coin c st) as (Hk' & Hr & Hd)
    end.
    simpl in *. rewrite Hk', Hr, Hk. repeat split; auto; discriminate.
Qed.

Lemma sameControl_refl n : sameControl n n.
Proof. by unfold sameControl. Qed.

Lemma sameControl_trans n1 n2 n3 :
  sameControl n1 n2 → sameControl n2 n3 → sameControl n1 n3.
Proof. unfold sameControl. intros (?&?&?) (?&?&?). repeat split; congruence. Qed.

Lemma roundEnd_ok n :
  concrete (state n) →
  killed (state n) = true ∨ binary (x (state n)) →
  (decided (state n) = Some true → binary (x (state n))) →
  sameControl n (roundEnd n).1 ∧ wellSuspended (roundEnd n).
Proof.
  intros (Hx & Hd & Hr) Hkx Hdx.
  unfold roundEnd, sameControl, wellSuspended, concrete.
  destruct (negb (truthy (decided (state n))) && negb (killed (state n)));
    simpl; (split; [done|]); (split; [done|]); (split; [done|]);
    intros pc [= <-]; simpl; auto.
Qed.

Lemma runPhaseTwo_ok cfg n :
  concrete (state n) →
  decided (state n) = Some false →
  sameControl n (runPhaseTwo cfg n).1 ∧ wellSuspended (runPhaseTwo cfg n).
Proof.
  intros Hc Hd. unfold runPhaseTwo. rewrite Hd. simpl.
  destruct (killed (state n)) eqn:Hk; simpl.
  - apply roundEnd_ok; auto. rewrite Hd. discriminate.
  - unfold sameControl, wellSuspended. simpl.
    split; [done|]. split; [done|]. split; [rewrite Hd; discriminate|].
    intros pc [= <-]. simpl. split; [done | rewrite Hd; discriminate].
Qed.

Lemma afterWait_ok cfg o ph n :
  concrete (state n) →
  suspendedAt (state n) (AwaitBroadcast ph) →
  sameControl n (afterWait cfg o ph n).1 ∧ wellSuspended (afterWait cfg o ph n).
Proof.
  intros (Hx & Hd & Hr) Hs. destruct ph; simpl in *.
  - destruct Hs as [Hdec Hbin].
    destruct (processPhaseOne_frame cfg n) as (Hsame & Hd' & Hk' & Hx').
    destruct (runPhaseTwo_ok cfg (processPhaseOneMessages cfg n)) as [H1 H2].
    + unfold concrete. rewrite Hd', Hk'. auto.
    + congruence.
    + split; [|done]. eapply sameControl_trans; eauto.
  - destruct (processPhaseTwo_frame cfg (randomLow o) n)
      as (Hsame & Hk' & Hdead & Hlive).
    set (n' := processPhaseTwoMessages cfg (randomLow o) n) in *.
    destruct (killed (state n)) eqn:Ek.
    + destruct (roundEnd_ok n') as [H1 H2].
      * rewrite Hdead by done. done.
      * left. destruct Hsame as (_ & _ & ->). done.
      * rewrite Hdead by done. rewrite Hs. discriminate.
      * split; [|done]. eapply sameControl_trans; eauto.
    + destruct (roundEnd_ok n') as [H1 H2].
      * unfold concrete. rewrite Hk'. repeat split; auto.
        -- destruct (Hlive eq_refl) as [(_ & -> & _)|(_ & [-> | ->])]; eauto.
        -- destruct (Hlive eq_refl) as [(-> & _)|(-> & _)]; eauto.
      * right. destruct (Hlive eq_refl) as [(_ & -> & ?)|(_ & ?)]; done.
      * intros _. destruct (Hlive eq_refl) as [(_ & -> & ?)|(_ & ?)]; done.
      * split; [|done]. eapply sameControl_trans; eauto.
Qed.

Lemma pollMessages_ok cfg o ph currentK n :
  concrete (state n) →
  suspendedAt (state n) (AwaitBroadcast ph) →
  sameControl n (pollMessages cfg o ph currentK n).1
  ∧ wellSuspended (pollMessages cfg o ph currentK n).
Proof.
  intros Hc Hs. unfold pollMessages.
  destruct (keepWaiting cfg o ph currentK n); [|by apply afterWait_ok].
  split; [apply sameControl_refl|].
  unfold wellSuspended; simpl.
  assert (decided (state n) = Some false) as Hd.
  { destruct ph; simpl in Hs; [apply Hs | exact Hs]. }
  split; [done|]. split; [rewrite Hd; discriminate|].
  intros pc [= <-]. split; [by destruct ph|]. rewrite Hd. discriminate.
Qed.

Lemma roundLoop_ok cfg n :
  concrete (state n) →
  killed (state n) = true ∨ binary (x (state n)) →
  (decided (state n) = Some true → binary (x (state n))) →
  sameControl n (roundLoop cfg n).1 ∧ wellSuspended (roundLoop cfg n)
  ∧ (decided (state n) = Some true → roundLoop cfg n = (n, None)).
Proof.
  intros Hc Hkx Hdx. unfold roundLoop, runPhaseOne.
  assert (sameControl n n ∧ wellSuspended (n, None)) as Hstay.
  { split; [apply sameControl_refl|]. unfold wellSuspended. simpl.
    split; [done|]. split; [done|]. intros pc [=]. }
  destruct Hc as (Hx & [d Hd] & Hr).
  rewrite Hd. simpl.
  destruct d; simpl.
  - split; [apply Hstay|]. split; [apply Hstay | done].
  - destruct (killed (state n)) eqn:Ek; simpl.
    + split; [apply Hstay|]. split; [apply Hstay | done].
    + destruct Hkx as [?|Hb]; [done|].
      unfold sameControl, wellSuspended, concrete; simpl.
      rewrite Hd.
      split; [done|]. split; [|done].
      split; [eauto|]. split; [done|].
      intros pc [= <-]. simpl. done.
Qed.

Lemma resume_ok cfg o pc n :
  concrete (state n) →
  suspendedAt (state n) pc →
  (decided (state n) = Some true → pc = AwaitRoundDelay ∧ binary (x (state n))) →
  sameControl n (resume cfg o pc n).1 ∧ wellSuspended (resume cfg o pc n)
  ∧ (decided (state n) = Some true → resume cfg o pc n = (n, None)).
Proof.
  intros Hc Hs Hd.
  destruct pc as [ph|ph currentK|]; simpl.
  - destruct (pollMessages_ok cfg o ph (k (state n)) n) as [H1 H2]; auto.
    unfold waitForMessages. split; [done|]. split; [done|].
    intros Ht. destruct (Hd Ht) as [[=] _].
  - assert (suspendedAt (state n) (AwaitBroadcast ph)) as Hs' by (by destruct ph).
    split; [|split].
    + destruct (killed (state n));
        [by apply afterWait_ok | by apply pollMessages_ok].
    + destruct (killed (state n));
        [by apply afterWait_ok | by apply pollMessages_ok].
    + intros Ht. destruct (Hd Ht) as [[=] _].
  - apply roundLoop_ok; auto. intros Ht. apply (Hd Ht).
Qed.

(** ** Every execution of a non-faulty node keeps the invariant *)

Lemma invariant_ext cfg n n' :
  state n' = state n →
  consensusRunning n' = consensusRunning n →
  tasks n' = tasks n →
  invariant cfg n → invariant cfg n'.
Proof. unfold invariant. intros -> -> ->. done. Qed.

Lemma init_invariant cfg :
  isFaulty cfg = false → invariant cfg (init cfg).
Proof.
  intros Hf. unfold invariant, concrete, init. simpl. rewrite Hf.
  split; [eauto|]. split; [done|]. split; [by left | done].
Qed.

Lemma binary_initialValue cfg :
  initialValue cfg ≠ VQ → binary (Some (initialValue cfg)).
Proof. unfold binary. destruct (initialValue cfg); [by left | by right | done]. Qed.

Lemma messageHandler_frame cfg b n :
  let n' := (messageHandler cfg b n).1 in
  state n' = state n ∧ consensusRunning n' = consensusRunning n
  ∧ tasks n' = tasks n ∧ outbox n' = outbox n.
Proof.
  unfold messageHandler.
  destruct (killed (state n) || isFaulty cfg); simpl; [done|].
  destruct (strict_eq (body_phase b) (JNum 1)); simpl;
    [by destruct (push _ _ _)|].
  destruct (strict_eq (body_phase b) (JNum 2)); simpl;
    [by destruct (push _ _ _) | done].
Qed.

Lemma startHandler_invariant cfg n :
  isFaulty cfg = false → initialValue cfg ≠ VQ →
  invariant cfg n → invariant cfg (startHandler cfg n).1.
Proof.
  intros Hf Hv Hinv. unfold startHandler. rewrite Hf. simpl.
  destruct (killed (state n)) eqn:Ek; simpl; [done|].
  destruct (consensusRunning n) eqn:Er; simpl; [done|].
  destruct Hinv as (Hc & Hfresh & _ & _).
  destruct (Hfresh Er Ek) as [Ht Hst].
  pose proof (binary_initialValue cfg Hv) as Hb.
  unfold startConsensus, roundLoop, runPhaseOne. rewrite Hf. simpl.
  rewrite Hst. simpl. rewrite Hf. simpl.
  case_bool_decide; simpl; unfold invariant, concrete; simpl;
    rewrite ?Hst, Ht; simpl; rewrite ?Hf.
  - split; [eauto|]. split; [done|]. split; [by left|]. done.
  - split; [eauto|]. split; [done|]. split; [|done].
    right. exists (AwaitBroadcast PhaseOne). simpl. done.
Qed.

Lemma stopHandler_invariant cfg n :
  invariant cfg n → invariant cfg (stopHandler n).1.
Proof.
  intros (Hc & _ & Ht & Hd). unfold stopHandler, invariant; simpl.
  split; [done|]. split; [done|]. split; [|done].
  destruct Ht as [Ht|(pc & Ht & Hs & Hp)]; [by left|].
  right. exists pc. split; [done|]. split; [|done].
  destruct pc as [[]|[]|]; simpl in *; auto.
Qed.

Lemma resume_invariant cfg i o n :
  invariant cfg n → invariant cfg (step cfg n (Resume i o)).
Proof.
  intros Hinv. simpl.
  destruct (tasks n !! i) as [pc|] eqn:Ei; [|done].
  destruct Hinv as (Hc & Hfresh & Ht & Hd).
  destruct Ht as [Ht|(pc0 & Ht & Hs & Hp)]; [by rewrite Ht in Ei|].
  rewrite Ht in Ei. destruct i as [|i]; [|done]. simplify_eq/=.
  destruct (resume_ok cfg o pc n) as ((Hts & Hr & Hk) & (Hc' & Hd' & Hs') & _);
    [done|done|auto|].
  assert (¬ (consensusRunning n = false ∧ killed (state n) = false)) as Hrun.
  { intros [H1 H2]. destruct (Hfresh H1 H2) as [H3 _]. by rewrite H3 in Ht. }
  destruct (resume cfg o pc n) as [n' next]; simpl in *.
  destruct next as [pc'|]; unfold invariant; simpl; rewrite Hts, Ht; simpl.
  - split; [done|]. split; [rewrite Hr, Hk; tauto|]. split; [|done].
    right. exists pc'. destruct (Hs' pc' eq_refl). done.
  - split; [done|]. split; [rewrite Hr, Hk; tauto|]. split; [by left|done].
Qed.

Lemma step_invariant cfg n ev :
  isFaulty cfg = false → initialValue cfg ≠ VQ →
  invariant cfg n → invariant cfg (step cfg n ev).
Proof.
  intros Hf Hv Hinv. destruct ev as [[| b | | |]|i o].
  - simpl. unfold statusHandler. by destruct (isFaulty cfg).
  - destruct (messageHandler_frame cfg b n) as (? & ? & ? & _).
    by eapply invariant_ext.
  - by apply startHandler_invariant.
  - by apply stopHandler_invariant.
  - done.
  - by apply resume_invariant.
Qed.

Lemma run_app cfg evs1 evs2 n :
  run cfg (evs1 ++ evs2) n = run cfg evs2 (run cfg evs1 n).
Proof. unfold run. apply foldl_app. Qed.

Lemma run_invariant cfg evs n :
  isFaulty cfg = false → initialValue cfg ≠ VQ →
  invariant cfg n → invariant cfg (run cfg evs n).
Proof.
  intros Hf Hv. revert n.
  induction evs as [|ev evs IH]; intros n Hinv; simpl; [done|].
  apply IH. by apply step_invariant.
Qed.

Lemma reachable_invariant cfg n :
  isFaulty cfg = false → initialValue cfg ≠ VQ →
  reachable cfg n → invariant cfg n.
Proof.
  intros Hf Hv [evs ->]. apply run_invariant; auto using init_invariant.
Qed.

(** ** The decision is final *)

Lemma step_decided cfg n ev :
  invariant cfg n →
  decided (state n) = Some true →
  decided (state (step cfg n ev)) = Some true
  ∧ x (state (step cfg n ev)) = x (state n).
Proof.
  intros Hinv Hd. destruct ev as [[| b | | |]|i o]; simpl.
  - unfold statusHandler. by destruct (isFaulty cfg).
  - destruct (messageHandler_frame cfg b n) as (-> & _). done.
  - unfold startHandler.
    destruct (isFaulty cfg || killed (state n)) eqn:E; simpl; [done|].
    destruct (consensusRunning n) eqn:Er; simpl; [done|].
    apply orb_false_iff in E as [Ef Ek].
    destruct Hinv as (_ & Hfresh & _). destruct (Hfresh Er Ek) as [_ Hst].
    rewrite Hst in Hd. simpl in Hd. rewrite Ef in Hd. done.
  - done.
  - done.
  - destruct (tasks n !! i) as [pc|] eqn:Ei; [|done].
    destruct Hinv as (Hc & _ & Ht & Hb).
    destruct Ht as [Ht|(pc0 & Ht & Hs & Hp)]; [by rewrite Ht in Ei|].
    rewrite Ht in Ei. destruct i as [|i]; [|done]. simplify_eq/=.
    destruct (resume_ok cfg o pc n) as (_ & _ & Hres); [done|done|auto|].
    rewrite (Hres Hd). done.
Qed.

Lemma run_decided cfg evs n :
  isFaulty cfg = false → initialValue cfg ≠ VQ →
  invariant cfg n →
  decided (state n) = Some true →
  decided (state (run cfg evs n)) = Some true
  ∧ x (state (run cfg evs n)) = x (state n).
Proof.
  intros Hf Hv. revert n.
  induction evs as [|ev evs IH]; intros n Hinv Hd; simpl; [done|].
  destruct (step_decided cfg n ev Hinv Hd) as [Hd' Hx'].
  destruct (IH (step cfg n ev)) as [Hd'' Hx'']; [by apply step_invariant|done|].
  split; [done | congruence].
Qed.

(** C3.  On a non-faulty node started from 0 or 1, [decided] is always
    [false] or [true]; and from any point of an execution where it is
    [true], [x] is 0 or 1 there, and whatever requests and wake-ups
    follow, [decided] is still [true] and [x] still has that value. *)
Theorem decision_is_final (cfg : Config) (evs1 evs2 : list Event) :
  isFaulty cfg = false →
  initialValue cfg ≠ VQ →
  let n1 := run cfg evs1 (init cfg) in
  let n2 := run cfg evs2 n1 in
  (decided (state n1) = Some false ∨ decided (state n1) = Some true)
  ∧ (decided (state n1) = Some true →
       binary (x (state n1))
       ∧ decided (state n2) = Some true
       ∧ x (state n2) = x (state n1)).
Proof.
  intros Hf Hv n1 n2.
  assert (invariant cfg n1) as Hinv
    by (apply run_invariant; auto using init_invariant).
  split.
  - destruct Hinv as ((_ & [[] Hd] & _) & _); auto.
  - intros Hd. split; [by apply Hinv|].
    by apply run_decided.
Qed.

(** C4.  On a non-faulty node started from 0 or 1, at every point of
    an execution [x] is one of 0, 1 and "?"; it is 0 or 1 while the loop
    is in phase 1 of a round, from the start of the round on, and when
    the loop rests between two rounds on a live node; and the phase-2
    tally of a live node always leaves [x] at 0 or 1. *)
Theorem round_starts_binary (cfg : Config) (evs : list Event) :
  isFaulty cfg = false →
  initialValue cfg ≠ VQ →
  let n := run cfg evs (init cfg) in
  is_Some (x (state n))
  ∧ (∀ pc, pc ∈ tasks n → inPhaseOne pc → binary (x (state n)))
  ∧ (AwaitRoundDelay ∈ tasks n → killed (state n) = false →
       binary (x (state n)))
  ∧ (∀ coin, killed (state n) = false →
       binary (x (state (processPhaseTwoMessages cfg coin n)))).
Proof.
  intros Hf Hv n.
  assert (invariant cfg n) as ((Hx & _) & _ & Ht & _)
    by (apply run_invariant; auto using init_invariant).
  split; [done|]. split; [|split].
  - intros pc Hin Hp.
    destruct Ht as [Ht|(pc0 & Ht & Hs & _)]; rewrite Ht in Hin.
    + by apply elem_of_nil in Hin.
    + apply list_elem_of_singleton in Hin as ->.
      destruct pc0 as [[]|[]|]; simpl in *; tauto.
  - intros Hin Hk.
    destruct Ht as [Ht|(pc0 & Ht & Hs & _)]; rewrite Ht in Hin.
    + by apply elem_of_nil in Hin.
    + apply list_elem_of_singleton in Hin as <-.
      simpl in Hs. destruct Hs; congruence.
  - intros coin Hk.
    destruct (processPhaseTwo_frame cfg coin n) as (_ & _ & _ & Hlive).
    destruct (Hlive Hk) as [(_ & -> & ?)|(_ & ?)]; done.
Qed.

(** ** No tie in phase 1 *)

Lemma majority_exclusive (total c0 c1 : Z) :
  c0 + c1 ≤ total → total / 2 + 1 ≤ c0 → total / 2 + 1 ≤ c1 → False.
Proof.
  intros Hsum H0 H1.
  pose proof (Z.div_mod total 2 ltac:(lia)) as Hdm.
  pose proof (Z.mod_pos_bound total 2 ltac:(lia)) as Hb.
  lia.
Qed.

(** C5.  When the two counts of phase 1 sum to at most [N], they cannot
    both reach [majority = N / 2 + 1], so the order of the two tests
    does not matter: the outcome is 0 exactly when the count of 0
    reaches the majority, 1 exactly when the count of 1 does, and "?"
    exactly when neither does. *)
Theorem phase_one_no_tie (cfg : Config) (counts : gmap string Z) (c0 c1 : Z) :
  counts !! "0" = Some c0 →
  counts !! "1" = Some c1 →
  c0 + c1 ≤ N cfg →
  ¬ (reaches counts "0" (majority cfg) = true
     ∧ reaches counts "1" (majority cfg) = true)
  ∧ (phaseOneOutcome cfg counts = V0 ↔ majority cfg ≤ c0)
  ∧ (phaseOneOutcome cfg counts = V1 ↔ majority cfg ≤ c1)
  ∧ (phaseOneOutcome cfg counts = VQ ↔ c0 < majority cfg ∧ c1 < majority cfg).
Proof.
  intros H0 H1 Hsum.
  pose proof (majority_exclusive (N cfg) c0 c1 Hsum) as Hex.
  unfold phaseOneOutcome, reaches, majority in *. rewrite H0, H1.
  split.
  { intros [Ha Hb]. apply bool_decide_eq_true in Ha, Hb. eauto. }
  repeat case_bool_decide; (split; [|split]); split;
    try discriminate; try tauto; try lia.
Qed.

(** ** A lone node decides at once *)

Lemma atRest_step cfg n ev :
  N cfg = 1 → isFaulty cfg = false →
  ev ≠ Req GetStop →
  atRest cfg n →
  atRest cfg (step cfg n ev)
  ∧ (consensusRunning n = true ∨ ev = Req GetStart →
       consensusRunning (step cfg n ev) = true).
Proof.
  intros HN Hf Hev Hn.
  assert (atRest cfg n
          ∧ (consensusRunning n = true ∨ ev = Req GetStart →
               ev ≠ Req GetStart → consensusRunning n = true)) as Hsame.
  { split; [done|]. by intros [?|?]. }
  destruct Hn as (Ht & Ho & Hst).
  assert (killed (state n) = false) as Hk.
  { destruct Hst as [[_ ->]|[_ ->]]; done. }
  destruct ev as [[| b | | |]|i o]; simpl.
  - unfold statusHandler. destruct (isFaulty cfg); simpl;
      (split; [apply Hsame|]); intros H; by apply Hsame.
  - destruct (messageHandler_frame cfg b n) as (Hs & Hr & Ht' & Ho').
    simpl in *. unfold atRest. rewrite Hs, Hr, Ht', Ho'.
    split; [apply Hsame|]. intros H; by apply Hsame.
  - unfold startHandler. rewrite Hf, Hk. simpl.
    destruct Hst as [[Hr Hs]|[Hr Hs]]; rewrite Hr; simpl.
    + unfold startConsensus. rewrite HN, Hf. simpl.
      unfold atRest. simpl. rewrite Ht, Ho, Hs. simpl. rewrite Hf.
      split; [|done]. split; [done|]. split; [done|]. by right.
    + split; [apply Hsame|done].
  - done.
  - split; [apply Hsame|]. intros H; by apply Hsame.
  - rewrite Ht. simpl. split; [apply Hsame|]. intros H; by apply Hsame.
Qed.

Lemma atRest_run cfg evs n :
  N cfg = 1 → isFaulty cfg = false →
  noStop evs →
  atRest cfg n →
  atRest cfg (run cfg evs n)
  ∧ (consensusRunning n = true → consensusRunning (run cfg evs n) = true).
Proof.
  intros HN Hf Hevs. revert n.
  induction Hevs as [|ev evs Hev Hevs IH]; intros n Hn; simpl; [done|].
  destruct (atRest_step cfg n ev HN Hf Hev Hn) as [Hn' Hr'].
  destruct (IH _ Hn') as [Hn'' Hr''].
  split; [done|]. intros Hr. apply Hr'', Hr'. by left.
Qed.

Lemma atRest_running cfg n :
  atRest cfg n → consensusRunning n = true →
  state n = decidedAlone cfg ∧ tasks n = [] ∧ outbox n = [].
Proof. intros (Ht & Ho & [[Hr _]|[_ Hs]]) Hrun; [congruence | done]. Qed.

(** C6.  With [N = 1] on a non-faulty node that was not stopped,
    [/start] answers 200 and the driver sets [decided] at once and
    returns: no activation is suspended, nothing is broadcast and [k]
    is 0; and as long as no [/stop] comes, this stays so and [/getState]
    answers 200 with
    [{killed: false, x: initialValue, decided: true, k: 0}]. *)
Theorem single_node_shortcut (cfg : Config) (before after : list Event) :
  N cfg = 1 →
  isFaulty cfg = false →
  noStop before →
  noStop after →
  let started := handle cfg GetStart (run cfg before (init cfg)) in
  let n := run cfg after started.1 in
  started.2 = mkResponse 200 PSuccess
  ∧ state started.1 = decidedAlone cfg
  ∧ tasks started.1 = [] ∧ outbox started.1 = []
  ∧ state n = decidedAlone cfg
  ∧ tasks n = [] ∧ outbox n = []
  ∧ handle cfg GetGetState n
    = (n, mkResponse 200 (PState (decidedAlone cfg))).
Proof.
  intros HN Hf Hb Ha started n.
  assert (atRest cfg (init cfg)) as H0.
  { unfold atRest. simpl. split; [done|]. split; [done|]. by left. }
  destruct (atRest_run cfg before _ HN Hf Hb H0) as [H1 _].
  assert (Req GetStart ≠ Req GetStop) as Hne by discriminate.
  destruct (atRest_step cfg _ (Req GetStart) HN Hf Hne H1) as [H2 Hr2].
  change (step cfg (run cfg before (init cfg)) (Req GetStart))
    with started.1 in H2, Hr2.
  specialize (Hr2 (or_intror eq_refl)).
  destruct (atRest_running cfg _ H2 Hr2) as (Hs2 & Ht2 & Ho2).
  destruct (atRest_run cfg after _ HN Hf Ha H2) as [H3 Hr3].
  destruct (atRest_running cfg _ H3 (Hr3 Hr2)) as (Hs3 & Ht3 & Ho3).
  fold n in Hs3, Ht3, Ho3.
  split.
  { unfold started. simpl. unfold startHandler. rewrite Hf.
    destruct H1 as (_ & _ & [[_ ->]|[_ ->]]); done. }
  repeat (split; [done|]).
  simpl. unfold getStateHandler. by rewrite Hs3.
Qed.

(** ** Delivery to a dead or faulty node *)

(** C7.  A [/message] request that reaches a killed or a faulty node is
    answered with status 500 and leaves the whole closure, hence both
    message buffers, as it was. *)
Theorem rejected_delivery_is_atomic (cfg : Config) (b : Body) (n : Node) :
  killed (state n) = true ∨ isFaulty cfg = true →
  let r := handle cfg (PostMessage b) n in
  r = (n, mkResponse 500 (PError "Node is dead or faulty"))
  ∧ status r.2 = 500
  ∧ phaseOneMessages r.1 = phaseOneMessages n
  ∧ phaseTwoMessages r.1 = phaseTwoMessages n.
Proof.
  intros H. simpl. unfold messageHandler.
  assert (killed (state n) || isFaulty cfg = true) as ->.
  { apply orb_true_iff. exact H. }
  done.
Qed.

(** ** Delivery to a live node *)

Lemma push_Some (key : string) (m : Msg) (buf buf' : Buffer) :
  push key m buf = Some buf' →
  buf' = <[key := bucket key buf ++ [m]]> buf.
Proof.
  unfold push, ensure_bucket, bucket.
  destruct (buf !! key) as [l|] eqn:E.
  - rewrite E. by intros [= <-].
  - destruct (inherited key).
    + by rewrite E.
    + rewrite lookup_insert_eq. intros [= <-]. by rewrite insert_insert_eq.
Qed.

Lemma push_None (key : string) (m : Msg) (buf : Buffer) :
  buf !! key = None → inherited key = true → push key m buf = None.
Proof.
  intros E Hi. unfold push, ensure_bucket. by rewrite E, Hi, E.
Qed.


Lemma bucket_push (key : string) (m : Msg) (buf buf' : Buffer) :
  push key m buf = Some buf' → bucket key buf' = bucket key buf ++ [m].
Proof.
  intros ->%push_Some. unfold bucket at 1. by rewrite lookup_insert_eq.
Qed.



(** ** Stop is permanent *)

Lemma killed_roundEnd n :
  killed (state n) = true → roundEnd n = (n, Some AwaitRoundDelay).
Proof. intros Hk. unfold roundEnd. rewrite Hk, andb_false_r. done. Qed.

Lemma killed_afterWait cfg o ph n :
  killed (state n) = true → afterWait cfg o ph n = (n, Some AwaitRoundDelay).
Proof.
  intros Hk. destruct ph; simpl.
  - unfold processPhaseOneMessages, runPhaseTwo. rewrite Hk. simpl.
    rewrite Hk. simpl. by apply killed_roundEnd.
  - unfold processPhaseTwoMessages. rewrite Hk. by apply killed_roundEnd.
Qed.

Lemma killed_resume cfg o pc n :
  killed (state n) = true → (resume cfg o pc n).1 = n.
Proof.
  intros Hk. destruct pc as [ph|ph currentK|]; simpl.
  - unfold waitForMessages, pollMessages.
    destruct (keepWaiting cfg o ph (k (state n)) n); [done|].
    by rewrite killed_afterWait.
  - rewrite Hk. by rewrite killed_afterWait.
  - unfold roundLoop. rewrite Hk, andb_false_r. done.
Qed.

Lemma killed_step cfg n ev :
  killed (state n) = true →
  killed (state (step cfg n ev)) = true
  ∧ (consensusRunning n = false → consensusRunning (step cfg n ev) = false)
  ∧ outbox (step cfg n ev) = outbox n
  ∧ (length (tasks (step cfg n ev)) ≤ length (tasks n))%nat.
Proof.
  intros Hk. destruct ev as [[| b | | |]|i o]; simpl.
  - unfold statusHandler. by destruct (isFaulty cfg).
  - destruct (messageHandler_frame cfg b n) as (-> & -> & -> & ->). done.
  - unfold startHandler. rewrite Hk, orb_true_r. done.
  - done.
  - done.
  - destruct (tasks n !! i) as [pc|] eqn:Ei; [|done].
    pose proof (killed_resume cfg o pc n Hk) as Hn.
    destruct (resume cfg o pc n) as [n' next]. simpl in Hn. subst n'.
    destruct next as [pc'|]; simpl.
    + rewrite length_insert. done.
    + repeat split; try done. rewrite length_delete by eauto. lia.
Qed.

Lemma killed_run cfg evs n :
  killed (state n) = true →
  consensusRunning n = false →
  killed (state (run cfg evs n)) = true
  ∧ consensusRunning (run cfg evs n) = false
  ∧ outbox (run cfg evs n) = outbox n
  ∧ (length (tasks (run cfg evs n)) ≤ length (tasks n))%nat.
Proof.
  revert n. induction evs as [|ev evs IH]; intros n Hk Hr; simpl; [done|].
  destruct (killed_step cfg n ev Hk) as (Hk' & Hr' & Ho & Hl).
  destruct (IH (step cfg n ev) Hk' (Hr' Hr)) as (? & ? & ? & ?).
  repeat split; try done; [congruence | lia].
Qed.

(** C9.  [/stop] answers 200 and sets [killed]; whatever requests and
    wake-ups follow, [killed] stays [true] and [consensusRunning] stays
    [false], the loop is not started again (no activation is added and
    nothing more is broadcast), [/stop] and [/getState] still answer
    200, and [/start] answers 500 and leaves the node as it is. *)
Theorem stop_is_permanent (cfg : Config) (n : Node) (evs : list Event) :
  let stopped := handle cfg GetStop n in
  let n' := run cfg evs stopped.1 in
  stopped.2 = mkResponse 200 PSuccess
  ∧ killed (state stopped.1) = true
  ∧ killed (state n') = true
  ∧ consensusRunning n' = false
  ∧ outbox n' = outbox n
  ∧ (length (tasks n') ≤ length (tasks n))%nat
  ∧ (handle cfg GetStop n').2 = mkResponse 200 PSuccess
  ∧ handle cfg GetGetState n' = (n', mkResponse 200 (PState (state n')))
  ∧ handle cfg GetStart n'
    = (n', mkResponse 500 (PError "Node is faulty or killed")).
Proof.
  intros stopped n'.
  destruct (killed_run cfg evs stopped.1) as (Hk & Hr & Ho & Hl); [done|done|].
  fold n' in Hk, Hr, Ho, Hl. simpl in Ho, Hl.
  repeat (split; [done|]).
  simpl. unfold startHandler. by rewrite Hk, orb_true_r.
Qed.

(** ** What the phase-2 tally does not read *)

Lemma occurrences_filter_binary (v : JSON) (messages : list Msg) :
  v = JNum 0 ∨ v = JNum 1 →
  occurrences v (filter binaryMsg messages) = occurrences v messages.
Proof.
  intros Hv. induction messages as [|m ms IH]; [done|].
  rewrite filter_cons. destruct (decide (binaryMsg m)) as [Hb|Hb].
  - rewrite !occurrences_cons, IH. done.
  - rewrite occurrences_cons, IH.
    rewrite decide_False; [lia|].
    intros Hm. apply Hb. unfold binaryMsg. destruct Hv; subst; auto.
Qed.

Lemma count_filter_binary (v : Value) own (messages : list Msg) :
  v ≠ VQ →
  count v own (filter binaryMsg messages) = count v own messages.
Proof.
  intros Hv. unfold count. rewrite occurrences_filter_binary; [done|].
  destruct v; simpl; auto. done.
Qed.

Lemma phaseTwoOutcome_reads cfg coin (counts counts' : gmap string Z) st :
  counts !! "0" = counts' !! "0" →
  counts !! "1" = counts' !! "1" →
  phaseTwoOutcome cfg coin counts st = phaseTwoOutcome cfg coin counts' st.
Proof. intros H0 H1. unfold phaseTwoOutcome, reaches. by rewrite H0, H1. Qed.

(** C10.  Two nodes in the same state whose phase-2 buckets of the
    current round hold the same messages of value 0 or 1, in the same
    order, come out of the phase-2 tally in the same state: messages of
    value "?" or of any other value can be added or removed at will.
    The count of "?" is computed, but the rules read it not: the
    outcome is the same with any other number in its place, or with
    none. *)
Theorem phase_two_ignores_question_marks
    (cfg : Config) (coin : bool) (n1 n2 : Node) :
  state n1 = state n2 →
  filter binaryMsg (bucket (keyOf (k (state n1))) (phaseTwoMessages n1))
  = filter binaryMsg (bucket (keyOf (k (state n2))) (phaseTwoMessages n2)) →
  state (processPhaseTwoMessages cfg coin n1)
  = state (processPhaseTwoMessages cfg coin n2)
  ∧ (let own := x (state n1) in
     let messages := bucket (keyOf (k (state n1))) (phaseTwoMessages n1) in
     let counts := phaseTwoCounts own messages in
     counts !! "?" = Some (count VQ own messages)
     ∧ (∀ c, phaseTwoOutcome cfg coin (<["?" := c]> counts) (state n1)
             = phaseTwoOutcome cfg coin counts (state n1))
     ∧ phaseTwoOutcome cfg coin (delete "?" counts) (state n1)
       = phaseTwoOutcome cfg coin counts (state n1)).
Proof.
  intros Hst Hms. rewrite <- Hst in Hms. split.
  - unfold processPhaseTwoMessages. rewrite <- Hst.
    destruct (killed (state n1)); [done|]. simpl.
    rewrite !bucket_ensure, <- Hst.
    apply phaseTwoOutcome_reads.
    + rewrite !(phaseTwoCounts_lookup V0).
      rewrite <- (count_filter_binary V0 _ (bucket _ (phaseTwoMessages n1))) by done.
      rewrite <- (count_filter_binary V0 _ (bucket _ (phaseTwoMessages n2))) by done.
      by rewrite Hms.
    + rewrite !(phaseTwoCounts_lookup V1).
      rewrite <- (count_filter_binary V1 _ (bucket _ (phaseTwoMessages n1))) by done.
      rewrite <- (count_filter_binary V1 _ (bucket _ (phaseTwoMessages n2))) by done.
      by rewrite Hms.
  - simpl. split; [apply (phaseTwoCounts_lookup VQ)|]. split.
    + intros c. apply phaseTwoOutcome_reads; by rewrite lookup_insert_ne.
    + apply phaseTwoOutcome_reads; by rewrite lookup_delete_ne.
Qed.

(** ** The theorems at work on the scenarios *)

(** With both peers on 1, node 0 decides 1 in phase 2. *)
Lemma phase_two_tally_decides :
  killed (state (holding PhaseTwo agreeing)) = false
  ∧ state (processPhaseTwoMessages threeNodes true (holding PhaseTwo agreeing))
    = mkState false (Some V1) (Some true) (Some 0).
Proof.
  split; [reflexivity|].
  destruct (phase_two_tally_correct threeNodes true
              (holding PhaseTwo agreeing) eq_refl) as (_ & Hst & _).
  rewrite Hst. vm_compute. reflexivity.
Defined.

(** With one peer on 1 and one on 0, node 0 keeps 1 in phase 1. *)
Lemma phase_one_tally_keeps_majority :
  killed (state (holding PhaseOne divided)) = false
  ∧ state (processPhaseOneMessages threeNodes (holding PhaseOne divided))
    = mkState false (Some V1) (Some false) (Some 0).
Proof.
  split; [reflexivity|].
  destruct (phase_one_tally_correct threeNodes
              (holding PhaseOne divided) eq_refl) as (_ & _ & _ & Hst).
  rewrite Hst. vm_compute. reflexivity.
Defined.

(** The decision of [decidingRun] outlives late messages, a second
    [/start], a [/stop] and the last wake-ups of the loop. *)
Lemma decision_survives :
  isFaulty threeNodes = false
  ∧ initialValue threeNodes ≠ VQ
  ∧ decided (state (run threeNodes decidingRun (init threeNodes))) = Some true
  ∧ decided (state (run threeNodes (decidingRun ++ afterDecision)
                      (init threeNodes))) = Some true
  ∧ x (state (run threeNodes (decidingRun ++ afterDecision)
                (init threeNodes))) = Some V1.
Proof.
  assert (initialValue threeNodes ≠ VQ) as Hv by (vm_compute; discriminate).
  split; [reflexivity|]. split; [exact Hv|].
  assert (decided (state (run threeNodes decidingRun (init threeNodes)))
          = Some true) as Hd by (vm_compute; reflexivity).
  split; [exact Hd|].
  destruct (decision_is_final threeNodes decidingRun afterDecision eq_refl Hv)
    as [_ Hfin].
  destruct (Hfin Hd) as (_ & Hd2 & Hx2).
  rewrite run_app. split; [exact Hd2|].
  rewrite Hx2. vm_compute. reflexivity.
Defined.

(** Right after [/start] the loop is in phase 1 with [x] at 1. *)
Lemma opening_round_is_binary :
  isFaulty threeNodes = false
  ∧ initialValue threeNodes ≠ VQ
  ∧ tasks (run threeNodes [Req GetStart] (init threeNodes))
    = [AwaitBroadcast PhaseOne]
  ∧ binary (x (state (run threeNodes [Req GetStart] (init threeNodes)))).
Proof.
  assert (initialValue threeNodes ≠ VQ) as Hv by (vm_compute; discriminate).
  split; [reflexivity|]. split; [exact Hv|]. split; [reflexivity|].
  destruct (round_starts_binary threeNodes [Req GetStart] eq_refl Hv)
    as (_ & Hq & _).
  apply (Hq (AwaitBroadcast PhaseOne)); [|exact I].
  vm_compute. apply list_elem_of_here.
Defined.

(** Three votes, one for 0 and two for 1: only 1 reaches the majority. *)
Lemma divided_counts_no_tie :
  phaseOneCounts (Some V1) divided !! "0" = Some 1
  ∧ phaseOneCounts (Some V1) divided !! "1" = Some 2
  ∧ 1 + 2 ≤ N threeNodes
  ∧ (phaseOneOutcome threeNodes (phaseOneCounts (Some V1) divided) = V1
     ↔ majority threeNodes ≤ 2).
Proof.
  assert (phaseOneCounts (Some V1) divided !! "0" = Some 1) as H0
    by (vm_compute; reflexivity).
  assert (phaseOneCounts (Some V1) divided !! "1" = Some 2) as H1
    by (vm_compute; reflexivity).
  assert (1 + 2 ≤ N threeNodes) as Hsum by (vm_compute; discriminate).
  split; [exact H0|]. split; [exact H1|]. split; [exact Hsum|].
  apply (phase_one_no_tie threeNodes _ 1 2 H0 H1 Hsum).
Defined.

(** A lone node started from 0 reports [x = 0] and [decided]. *)
Lemma lone_node_reports_decided :
  N oneNode = 1
  ∧ isFaulty oneNode = false
  ∧ noStop earlyRun
  ∧ noStop aloneRun
  ∧ (handle oneNode GetGetState
       (run oneNode aloneRun
          (handle oneNode GetStart (run oneNode earlyRun (init oneNode))).1)).2
    = mkResponse 200 (PState (mkState false (Some V0) (Some true) (Some 0))).
Proof.
  assert (noStop earlyRun) as Hb by (repeat constructor; discriminate).
  assert (noStop aloneRun) as Ha by (repeat constructor; discriminate).
  split; [reflexivity|]. split; [reflexivity|].
  split; [exact Hb|]. split; [exact Ha|].
  destruct (single_node_shortcut oneNode earlyRun aloneRun
              eq_refl eq_refl Hb Ha)
    as (_ & _ & _ & _ & _ & _ & _ & Hget).
  rewrite Hget. reflexivity.
Defined.

(** After [/stop] a delivery is refused and changes nothing. *)
Lemma killed_node_rejects_delivery :
  killed (state (handle threeNodes GetStop (init threeNodes)).1) = true
  ∧ handle threeNodes (PostMessage strayBody)
      (handle threeNodes GetStop (init threeNodes)).1
    = ((handle threeNodes GetStop (init threeNodes)).1,
       mkResponse 500 (PError "Node is dead or faulty")).
Proof.
  split; [reflexivity|].
  apply (rejected_delivery_is_atomic threeNodes strayBody
           (handle threeNodes GetStop (init threeNodes)).1).
  left. reflexivity.
Defined.


(** A bucket with "?", 7 and [null] around one 1 tallies as that 1
    alone. *)
Lemma noisy_bucket_tallies_as_quiet :
  state (holding PhaseTwo noisy) = state (holding PhaseTwo quiet)
  ∧ filter binaryMsg (bucket (keyOf (k (state (holding PhaseTwo noisy))))
                        (phaseTwoMessages (holding PhaseTwo noisy)))
    = filter binaryMsg (bucket (keyOf (k (state (holding PhaseTwo quiet))))
                          (phaseTwoMessages (holding PhaseTwo quiet)))
  ∧ state (processPhaseTwoMessages threeNodes false (holding PhaseTwo noisy))
    = state (processPhaseTwoMessages threeNodes false (holding PhaseTwo quiet)).
Proof.
  assert (filter binaryMsg (bucket (keyOf (k (state (holding PhaseTwo noisy))))
                              (phaseTwoMessages (holding PhaseTwo noisy)))
          = filter binaryMsg (bucket (keyOf (k (state (holding PhaseTwo quiet))))
                                (phaseTwoMessages (holding PhaseTwo quiet))))
    as Hms by (vm_compute; reflexivity).
  split; [reflexivity|]. split; [exact Hms|].
  apply (phase_two_ignores_question_marks threeNodes false
           (holding PhaseTwo noisy) (holding PhaseTwo quiet) eq_refl Hms).
Defined.

(** ** What the loop and the handlers leave in place *)

Lemma extends_refl (buf : Buffer) : extends buf buf.
Proof. intros key. done. Qed.

Lemma extends_trans (b1 b2 b3 : Buffer) :
  extends b1 b2 → extends b2 b3 → extends b1 b3.
Proof. intros H1 H2 key. etrans; [apply H1 | apply H2]. Qed.

Lemma bucket_ensure_any (key key' : string) (buf : Buffer) :
  bucket key (ensure_bucket key' buf) = bucket key buf.
Proof.
  unfold bucket, ensure_bucket.
  destruct (buf !! key') as [l|] eqn:E; [done|].
  destruct (inherited key'); [done|].
  destruct (decide (key' = key)) as [->|Hne].
  - by rewrite lookup_insert_eq, E.
  - by rewrite lookup_insert_ne.
Qed.

Lemma sameBuckets_refl (buf : Buffer) : sameBuckets buf buf.
Proof. intros key. done. Qed.

Lemma sameBuckets_trans (b1 b2 b3 : Buffer) :
  sameBuckets b1 b2 → sameBuckets b2 b3 → sameBuckets b1 b3.
Proof. intros H1 H2 key. by rewrite H2, H1. Qed.

Lemma sameBuckets_ensure (key : string) (buf : Buffer) :
  sameBuckets buf (ensure_bucket key buf).
Proof. intros key'. by rewrite bucket_ensure_any. Qed.

Lemma sameBuckets_extends (buf buf' : Buffer) :
  sameBuckets buf buf' → extends buf buf'.
Proof. intros H key. by rewrite H. Qed.

Lemma bucket_push_ne (key key' : string) (m : Msg) (buf buf' : Buffer) :
  push key m buf = Some buf' →
  key ≠ key' → bucket key' buf' = bucket key' buf.
Proof.
  intros ->%push_Some Hne. unfold bucket. by rewrite lookup_insert_ne.
Qed.

Lemma extends_push (key : string) (m : Msg) (buf buf' : Buffer) :
  push key m buf = Some buf' → extends buf buf'.
Proof.
  intros Hp key'. destruct (decide (key = key')) as [->|Hne].
  - rewrite (bucket_push _ _ _ _ Hp). by apply prefix_app_r.
  - by rewrite (bucket_push_ne _ _ _ _ _ Hp).
Qed.

Lemma grows_refl n : grows n n.
Proof. unfold grows. auto 10 using sameBuckets_refl. Qed.

Lemma grows_trans n1 n2 n3 : grows n1 n2 → grows n2 n3 → grows n1 n3.
Proof.
  unfold grows. intros (?&?&?&?&?&?) (?&?&?&?&?&?).
  repeat split; try congruence; try (by eapply sameBuckets_trans).
  etrans; eassumption.
Qed.

Lemma broadcastMessage_grows cfg phase value round n :
  grows n (broadcastMessage cfg phase value round n).
Proof.
  unfold grows, broadcastMessage. simpl.
  repeat split; auto using sameBuckets_refl. by apply prefix_app_r.
Qed.

Lemma processPhaseOne_grows cfg n : grows n (processPhaseOneMessages cfg n).
Proof.
  unfold processPhaseOneMessages.
  destruct (killed (state n)) eqn:Hk; [apply grows_refl|].
  unfold grows. simpl. repeat split; auto using sameBuckets_refl, sameBuckets_ensure.
Qed.

Lemma processPhaseTwo_grows cfg coin n :
  grows n (processPhaseTwoMessages cfg coin n).
Proof.
  destruct (processPhaseTwo_frame cfg coin n) as ((Ht & Hr & Hk) & _).
  unfold grows. rewrite Ht, Hr, Hk.
  unfold processPhaseTwoMessages.
  destruct (killed (state n)); simpl;
    repeat split; auto using sameBuckets_refl, sameBuckets_ensure.
Qed.

Lemma roundEnd_grows n : grows n (roundEnd n).1.
Proof.
  unfold roundEnd.
  destruct (negb (truthy (decided (state n))) && negb (killed (state n)));
    simpl; [|apply grows_refl].
  unfold grows. simpl. repeat split; auto using sameBuckets_refl.
Qed.

Lemma runPhaseTwo_grows cfg n : grows n (runPhaseTwo cfg n).1.
Proof.
  unfold runPhaseTwo.
  destruct (killed (state n) || truthy (decided (state n)));
    [apply roundEnd_grows | apply broadcastMessage_grows].
Qed.

Lemma afterWait_grows cfg o ph n : grows n (afterWait cfg o ph n).1.
Proof.
  destruct ph; simpl.
  - eapply grows_trans; [apply processPhaseOne_grows | apply runPhaseTwo_grows].
  - eapply grows_trans; [apply processPhaseTwo_grows | apply roundEnd_grows].
Qed.

Lemma pollMessages_grows cfg o ph currentK n :
  grows n (pollMessages cfg o ph currentK n).1.
Proof.
  unfold pollMessages.
  destruct (keepWaiting cfg o ph currentK n);
    [apply grows_refl | apply afterWait_grows].
Qed.

Lemma runPhaseOne_grows cfg n : grows n (runPhaseOne cfg n).1.
Proof.
  unfold runPhaseOne.
  destruct (killed (state n) || truthy (decided (state n)));
    [apply runPhaseTwo_grows | apply broadcastMessage_grows].
Qed.

Lemma roundLoop_grows cfg n : grows n (roundLoop cfg n).1.
Proof.
  unfold roundLoop.
  destruct (negb (truthy (decided (state n))) && negb (killed (state n)));
    [apply runPhaseOne_grows | apply grows_refl].
Qed.

Lemma startConsensus_grows cfg n : grows n (startConsensus cfg n).1.
Proof.
  unfold startConsensus.
  destruct (bool_decide (N cfg = 1) && negb (isFaulty cfg));
    [|apply roundLoop_grows].
  unfold grows. simpl. repeat split; auto using sameBuckets_refl.
Qed.

Lemma resume_grows cfg o pc n : grows n (resume cfg o pc n).1.
Proof.
  destruct pc as [ph|ph currentK|]; simpl.
  - apply pollMessages_grows.
  - destruct (killed (state n));
      [apply afterWait_grows | apply pollMessages_grows].
  - apply roundLoop_grows.
Qed.

Lemma step_extends cfg n ev :
  extends (phaseOneMessages n) (phaseOneMessages (step cfg n ev))
  ∧ extends (phaseTwoMessages n) (phaseTwoMessages (step cfg n ev)).
Proof.
  destruct ev as [[| b | | |]|i o]; simpl.
  - unfold statusHandler. destruct (isFaulty cfg); auto using extends_refl.
  - unfold messageHandler.
    destruct (killed (state n) || isFaulty cfg); simpl;
      [auto using extends_refl|].
    destruct (strict_eq (body_phase b) (JNum 1)); simpl.
    { destruct (push _ _ (phaseOneMessages n)) eqn:Hp; simpl;
        eauto using extends_refl, extends_push. }
    destruct (strict_eq (body_phase b) (JNum 2)); simpl;
      [|auto using extends_refl].
    destruct (push _ _ (phaseTwoMessages n)) eqn:Hp; simpl;
      eauto using extends_refl, extends_push.
  - unfold startHandler.
    destruct (isFaulty cfg || killed (state n)); simpl;
      [auto using extends_refl|].
    destruct (consensusRunning n); simpl; [auto using extends_refl|].
    destruct (startConsensus_grows cfg (set_consensusRunning true n))
      as (_ & _ & _ & H1 & H2 & _).
    split; by apply sameBuckets_extends.
  - auto using extends_refl.
  - auto using extends_refl.
  - destruct (tasks n !! i) as [pc|]; [|auto using extends_refl].
    destruct (resume_grows cfg o pc n) as (_ & _ & _ & H1 & H2 & _).
    destruct (resume cfg o pc n) as [n' [pc'|]];
      split; by apply sameBuckets_extends.
Qed.

(** X3.  The buffers only grow, at the end of their buckets: after any
    requests and wake-ups, every bucket of either buffer starts with
    what it held before; no entry is ever removed, changed or
    reordered. *)
Theorem buffers_append_only (cfg : Config) (evs : list Event) (n : Node)
    (key : string) :
  bucket key (phaseOneMessages n)
    `prefix_of` bucket key (phaseOneMessages (run cfg evs n))
  ∧ bucket key (phaseTwoMessages n)
    `prefix_of` bucket key (phaseTwoMessages (run cfg evs n)).
Proof.
  revert n. induction evs as [|ev evs IH]; intros n; simpl; [done|].
  destruct (step_extends cfg n ev) as [H1 H2].
  destruct (IH (step cfg n ev)) as [H3 H4].
  split; etrans; eauto.
Qed.

(** ** One activation at a time *)

Lemma step_single cfg n ev :
  (length (tasks n) ≤ 1)%nat
  ∧ (consensusRunning n = false → killed (state n) = false → tasks n = []) →
  (length (tasks (step cfg n ev)) ≤ 1)%nat
  ∧ (consensusRunning (step cfg n ev) = false →
     killed (state (step cfg n ev)) = false → tasks (step cfg n ev) = []).
Proof.
  intros [Hlen Hfresh].
  destruct ev as [[| b | | |]|i o]; simpl.
  - unfold statusHandler. by destruct (isFaulty cfg).
  - destruct (messageHandler_frame cfg b n) as (-> & -> & -> & _). done.
  - unfold startHandler.
    destruct (isFaulty cfg || killed (state n)) eqn:E; [done|].
    destruct (consensusRunning n) eqn:Er;
      [simpl; rewrite Er; split; [exact Hlen | intros [=]]|].
    apply orb_false_iff in E as [_ Ek].
    destruct (startConsensus_grows cfg (set_consensusRunning true n))
      as (Ht & Hr & _).
    destruct (startConsensus cfg (set_consensusRunning true n)) as [n' next].
    simpl in *. rewrite Ht, Hr, (Hfresh eq_refl Ek). simpl.
    split; [|done]. destruct next; simpl; lia.
  - done.
  - done.
  - destruct (tasks n !! i) as [pc|] eqn:Ei; [|done].
    destruct (resume_grows cfg o pc n) as (Ht & Hr & Hk & _).
    assert (tasks n ≠ []) as Hne by (intros Hnil; by rewrite Hnil in Ei).
    destruct (resume cfg o pc n) as [n' [pc'|]]; simpl in *;
      rewrite Ht, Hr, Hk.
    + rewrite length_insert. split; [done|]. intros H1 H2.
      by destruct Hne; apply Hfresh.
    + split; [rewrite length_delete by eauto; lia|]. intros H1 H2.
      by destruct Hne; apply Hfresh.
Qed.

(** X6.  Whatever the configuration and whatever requests and wake-ups
    come, at most one activation of [startConsensus] is ever suspended:
    [/start] launches the loop only when none is pending. *)
Theorem single_activation (cfg : Config) (evs : list Event) :
  (length (tasks (run cfg evs (init cfg))) ≤ 1)%nat.
Proof.
  assert (∀ n,
    (length (tasks n) ≤ 1)%nat
    ∧ (consensusRunning n = false → killed (state n) = false → tasks n = []) →
    (length (tasks (run cfg evs n)) ≤ 1)%nat) as Hrun.
  { induction evs as [|ev evs IH]; intros n Hn; simpl; [apply Hn|].
    apply IH. by apply step_single. }
  apply Hrun. simpl. split; [lia|done].
Qed.

(** ** The round number *)

Lemma advances_refl st : advances st st.
Proof. by left. Qed.

Lemma advances_after st0 st st' :
  k st = k st0 → advances st st' → advances st0 st'.
Proof. unfold advances. intros ->. done. Qed.

Lemma roundEnd_advances n : advances (state n) (state (roundEnd n).1).
Proof.
  unfold roundEnd, advances.
  destruct (negb (truthy (decided (state n))) && negb (killed (state n)));
    simpl; auto.
Qed.

Lemma runPhaseTwo_advances cfg n :
  advances (state n) (state (runPhaseTwo cfg n).1).
Proof.
  unfold runPhaseTwo.
  destruct (killed (state n) || truthy (decided (state n)));
    [apply roundEnd_advances | apply advances_refl].
Qed.

Lemma afterWait_advances cfg o ph n :
  advances (state n) (state (afterWait cfg o ph n).1).
Proof.
  destruct ph; simpl.
  - destruct (processPhaseOne_frame cfg n) as (_ & _ & Hk & _).
    eapply advances_after; [exact Hk | apply runPhaseTwo_advances].
  - destruct (processPhaseTwo_frame cfg (randomLow o) n) as (_ & Hk & _).
    eapply advances_after; [exact Hk | apply roundEnd_advances].
Qed.

Lemma pollMessages_advances cfg o ph currentK n :
  advances (state n) (state (pollMessages cfg o ph currentK n).1).
Proof.
  unfold pollMessages.
  destruct (keepWaiting cfg o ph currentK n);
    [apply advances_refl | apply afterWait_advances].
Qed.

Lemma roundLoop_advances cfg n :
  advances (state n) (state (roundLoop cfg n).1).
Proof.
  unfold roundLoop, runPhaseOne.
  destruct (negb (truthy (decided (state n))) && negb (killed (state n)));
    [|apply advances_refl].
  destruct (killed (state n) || truthy (decided (state n)));
    [apply runPhaseTwo_advances | apply advances_refl].
Qed.

Lemma resume_advances cfg o pc n :
  advances (state n) (state (resume cfg o pc n).1).
Proof.
  destruct pc as [ph|ph currentK|]; simpl.
  - apply pollMessages_advances.
  - destruct (killed (state n));
      [apply afterWait_advances | apply pollMessages_advances].
  - apply roundLoop_advances.
Qed.

Lemma step_advances cfg n ev :
  advances (state n) (state (step cfg n ev)).
Proof.
  destruct ev as [[| b | | |]|i o]; simpl.
  - unfold statusHandler. destruct (isFaulty cfg); apply advances_refl.
  - destruct (messageHandler_frame cfg b n) as (-> & _). apply advances_refl.
  - unfold startHandler.
    destruct (isFaulty cfg || killed (state n)); simpl; [apply advances_refl|].
    destruct (consensusRunning n); simpl; [apply advances_refl|].
    unfold startConsensus.
    destruct (bool_decide (N cfg = 1) && negb (isFaulty cfg)); simpl;
      [by left|].
    apply (roundLoop_advances cfg (set_consensusRunning true n)).
  - by left.
  - apply advances_refl.
  - destruct (tasks n !! i) as [pc|]; [|apply advances_refl].
    pose proof (resume_advances cfg o pc n) as H.
    destruct (resume cfg o pc n) as [n' [pc'|]]; exact H.
Qed.

(** X2.  The round number never goes down and goes up by at most one
    per request or wake-up: from a node whose [k] is the number [r],
    after [evs] it is a number between [r] and [r] plus the length of
    [evs]. *)
Theorem round_number_monotone (cfg : Config) (evs : list Event) (n : Node)
    (r : Z) :
  k (state n) = Some r →
  ∃ r', k (state (run cfg evs n)) = Some r'
        ∧ r ≤ r' ≤ r + Z.of_nat (length evs).
Proof.
  revert n r. induction evs as [|ev evs IH]; intros n r Hr; simpl.
  - exists r. split; [done | lia].
  - destruct (step_advances cfg n ev) as [Hs|Hs]; rewrite Hr in Hs.
    + destruct (IH _ _ Hs) as (r' & Hr' & Hb). exists r'. split; [done|lia].
    + simpl in Hs. destruct (IH _ _ Hs) as (r' & Hr' & Hb).
      exists r'. split; [done|lia].
Qed.

(** ** The fan-out of a broadcast *)

Lemma filter_all {A} (P : A → Prop) `{∀ a, Decision (P a)} (l : list A) :
  Forall P l → filter P l = l.
Proof.
  induction 1 as [|a l Ha Hl IH]; [done|].
  by rewrite filter_cons_True, IH.
Qed.

Lemma peers_split (self total : Z) :
  0 ≤ self < total →
  filter (λ i, i ≠ self) (seqZ 0 total)
  = seqZ 0 self ++ seqZ (self + 1) (total - self - 1).
Proof.
  intros Hs.
  replace total with (self + (1 + (total - self - 1))) at 1 by lia.
  rewrite seqZ_app by lia.
  rewrite (seqZ_cons (0 + self)) by lia.
  rewrite filter_app, filter_cons_False by (simpl; lia).
  rewrite !filter_all.
  - f_equal. f_equal; lia.
  - apply Forall_seqZ. lia.
  - apply Forall_seqZ. lia.
Qed.

(** X1.  With [nodeId] in [[0, N)], a broadcast adds to the requests
    sent one request per peer, to the peers [0 .. nodeId - 1] then
    [nodeId + 1 .. N - 1] in this order, hence [N - 1] requests and none
    to the node itself, all with the same body
    [{phase, value, k, from: nodeId}]; it touches nothing else. *)
Theorem broadcast_fanout (cfg : Config) (phase : Z) (value : option Value)
    (round : option Z) (n : Node) :
  0 ≤ nodeId cfg < N cfg →
  ∃ sent,
    broadcastMessage cfg phase value round n = set_outbox (outbox n ++ sent) n
    ∧ sent.*1 = seqZ 0 (nodeId cfg)
                ++ seqZ (nodeId cfg + 1) (N cfg - nodeId cfg - 1)
    ∧ Z.of_nat (length sent) = N cfg - 1
    ∧ Forall (λ e, e.2 = mkBody (JNum phase) (to_wire value)
                           (roundWire round) (JNum (nodeId cfg))) sent.
Proof.
  intros Hid. unfold broadcastMessage. rewrite peers_split by done.
  eexists. split; [reflexivity|]. split; [|split].
  - rewrite <- list_fmap_compose. apply list_fmap_id.
  - rewrite length_fmap, length_app, !length_seqZ. lia.
  - apply Forall_fmap, Forall_true. done.
Qed.

(** ** Deliveries to different buckets *)

Lemma delivered_unfold (key : string) (m : Msg) (buf : Buffer) :
  delivered key m buf
  = match buf !! key with
    | None => if inherited key then buf else <[key := [m]]> buf
    | Some l => <[key := l ++ [m]]> buf
    end.
Proof.
  unfold delivered, push, ensure_bucket.
  destruct (buf !! key) as [l|] eqn:E; [by rewrite E|].
  destruct (inherited key); [by rewrite E|].
  rewrite lookup_insert_eq. simpl. by rewrite insert_insert_eq.
Qed.

Lemma delivered_lookup_ne (key key' : string) (m : Msg) (buf : Buffer) :
  key ≠ key' → delivered key m buf !! key' = buf !! key'.
Proof.
  intros Hne. rewrite delivered_unfold.
  destruct (buf !! key); [by rewrite lookup_insert_ne|].
  destruct (inherited key); [done | by rewrite lookup_insert_ne].
Qed.

Lemma delivered_commute (k1 k2 : string) (m1 m2 : Msg) (buf : Buffer) :
  k1 ≠ k2 →
  delivered k2 m2 (delivered k1 m1 buf) = delivered k1 m1 (delivered k2 m2 buf).
Proof.
  intros Hne.
  rewrite (delivered_unfold k2 m2 (delivered _ _ _)).
  rewrite (delivered_unfold k1 m1 (delivered _ _ _)).
  rewrite delivered_lookup_ne, (delivered_lookup_ne k2 k1) by done.
  rewrite !delivered_unfold.
  destruct (buf !! k1) as [l1|], (buf !! k2) as [l2|];
    destruct (inherited k1), (inherited k2);
    try reflexivity; by apply insert_insert_ne.
Qed.

Lemma set_phaseOneMessages_same n : set_phaseOneMessages (phaseOneMessages n) n = n.
Proof. by destruct n. Qed.

Lemma set_phaseTwoMessages_same n : set_phaseTwoMessages (phaseTwoMessages n) n = n.
Proof. by destruct n. Qed.

(** The node a delivery leaves, whatever it answers. *)
Lemma messageHandler_node cfg b n :
  (messageHandler cfg b n).1
  = if killed (state n) || isFaulty cfg then n
    else if strict_eq (body_phase b) (JNum 1)
    then set_phaseOneMessages
           (delivered (propertyName (body_k b))
              (mkMsg (body_value b) (body_from b)) (phaseOneMessages n)) n
    else if strict_eq (body_phase b) (JNum 2)
    then set_phaseTwoMessages
           (delivered (propertyName (body_k b))
              (mkMsg (body_value b) (body_from b)) (phaseTwoMessages n)) n
    else n.
Proof.
  unfold messageHandler, delivered.
  destruct (killed (state n) || isFaulty cfg); [done|].
  destruct (strict_eq (body_phase b) (JNum 1)).
  { destruct (push _ _ (phaseOneMessages n)); simpl;
      [done | by rewrite set_phaseOneMessages_same]. }
  destruct (strict_eq (body_phase b) (JNum 2)); [|done].
  destruct (push _ _ (phaseTwoMessages n)); simpl;
    [done | by rewrite set_phaseTwoMessages_same].
Qed.

(** X4.  Two deliveries that differ in their phase or in the property
    name their [k] stands for commute: served in either order they
    leave the node in the same state, with the same buffers.  A number
    for [k] is taken in the range where every integer is a double, so
    that it is what was sent and prints as its digits. *)
Theorem deliveries_commute (cfg : Config) (b1 b2 : Body) (n : Node) :
  exactNumber (body_k b1) →
  exactNumber (body_k b2) →
  (body_phase b1, propertyName (body_k b1))
  ≠ (body_phase b2, propertyName (body_k b2)) →
  (handle cfg (PostMessage b2) (handle cfg (PostMessage b1) n).1).1
  = (handle cfg (PostMessage b1) (handle cfg (PostMessage b2) n).1).1.
Proof.
  intros _ _ Hne. simpl.
  rewrite (messageHandler_node cfg b2 (messageHandler cfg b1 n).1).
  rewrite (messageHandler_node cfg b1 (messageHandler cfg b2 n).1).
  destruct (messageHandler_frame cfg b1 n) as (-> & _).
  destruct (messageHandler_frame cfg b2 n) as (-> & _).
  rewrite !messageHandler_node.
  destruct (killed (state n) || isFaulty cfg); [done|].
  unfold strict_eq.
  destruct b1 as [p1 v1 k1 f1], b2 as [p2 v2 k2 f2]; simpl in *.
  repeat case_bool_decide; subst; simpl; try reflexivity.
  - unfold set_phaseOneMessages. simpl. f_equal.
    apply delivered_commute. congruence.
  - unfold set_phaseTwoMessages. simpl. f_equal.
    apply delivered_commute. congruence.
Qed.

(** ** A faulty node *)

Lemma faulty_step cfg n ev :
  isFaulty cfg = true →
  n = init cfg ∨ n = (handle cfg GetStop (init cfg)).1 →
  step cfg n ev = init cfg ∨ step cfg n ev = (handle cfg GetStop (init cfg)).1.
Proof.
  intros Hf Hn.
  destruct ev as [[| b | | |]|i o]; unfold step, handle.
  - unfold statusHandler. rewrite Hf. exact Hn.
  - unfold messageHandler. rewrite Hf, orb_true_r. exact Hn.
  - unfold startHandler. rewrite Hf. exact Hn.
  - right. by destruct Hn as [->| ->].
  - exact Hn.
  - destruct Hn as [->| ->]; simpl; auto.
Qed.

Lemma faulty_run cfg evs n :
  isFaulty cfg = true →
  n = init cfg ∨ n = (handle cfg GetStop (init cfg)).1 →
  run cfg evs n = init cfg ∨ run cfg evs n = (handle cfg GetStop (init cfg)).1.
Proof.
  intros Hf. revert n.
  induction evs as [|ev evs IH]; intros n Hn; simpl; [done|].
  apply IH. by apply faulty_step.
Qed.

(** X5.  A faulty node is inert: whatever requests and wake-ups come,
    its closure is the initial one, or the initial one with [killed]
    set; so [x], [decided] and [k] stay [null], both buffers stay empty
    and the loop never runs; [/status] answers 500 "faulty", [/start]
    answers 500 and [/getState] answers 200 with
    [{killed, x: null, decided: null, k: null}]. *)
Theorem faulty_node_is_inert (cfg : Config) (evs : list Event) :
  isFaulty cfg = true →
  let n := run cfg evs (init cfg) in
  (n = init cfg ∨ n = (handle cfg GetStop (init cfg)).1)
  ∧ phaseOneMessages n = ∅ ∧ phaseTwoMessages n = ∅
  ∧ tasks n = [] ∧ outbox n = []
  ∧ (handle cfg GetStatus n).2 = mkResponse 500 (PText "faulty")
  ∧ (handle cfg GetStart n).2
    = mkResponse 500 (PError "Node is faulty or killed")
  ∧ (handle cfg GetGetState n).2
    = mkResponse 200 (PState (mkState (killed (state n)) None None None)).
Proof.
  intros Hf n.
  assert (n = init cfg ∨ n = (handle cfg GetStop (init cfg)).1) as Hn.
  { apply faulty_run; auto. }
  split; [done|].
  simpl. unfold statusHandler, startHandler. rewrite Hf. simpl.
  destruct Hn as [->| ->]; simpl; rewrite Hf; done.
Qed.

(** ** Tallies read the values, and only as a multiset *)

Lemma occurrences_values v (messages : list Msg) :
  occurrences v messages
  = Z.of_nat (length (filter (λ w, w = v) (msg_value <$> messages))).
Proof.
  induction messages as [|m ms IH]; [done|].
  rewrite occurrences_cons, fmap_cons, filter_cons, IH.
  destruct (decide (msg_value m = v)); simpl; lia.
Qed.

Lemma count_values v own (ms ms' : list Msg) :
  msg_value <$> ms ≡ₚ msg_value <$> ms' →
  count v own ms = count v own ms'.
Proof.
  intros Hp. unfold count. rewrite !occurrences_values. by rewrite Hp.
Qed.

(** X9.  The tallies read the buckets as multisets of values: two nodes
    in the same state whose buckets of the current round carry the same
    values, in any order and from any senders, leave the phase-1 tally
    in the same state, and likewise the phase-2 tally. *)
Theorem tally_reads_values_as_multiset
    (cfg : Config) (coin : bool) (n1 n2 : Node) :
  state n1 = state n2 →
  (msg_value <$> bucket (keyOf (k (state n1))) (phaseOneMessages n1)
     ≡ₚ msg_value <$> bucket (keyOf (k (state n2))) (phaseOneMessages n2) →
   state (processPhaseOneMessages cfg n1)
   = state (processPhaseOneMessages cfg n2))
  ∧ (msg_value <$> bucket (keyOf (k (state n1))) (phaseTwoMessages n1)
       ≡ₚ msg_value <$> bucket (keyOf (k (state n2))) (phaseTwoMessages n2) →
     state (processPhaseTwoMessages cfg coin n1)
     = state (processPhaseTwoMessages cfg coin n2)).
Proof.
  intros Hst. split; intros Hp; rewrite <- Hst in Hp.
  - unfold processPhaseOneMessages. rewrite <- Hst.
    destruct (killed (state n1)); [done|]. simpl.
    rewrite !bucket_ensure, <- Hst. f_equal. f_equal.
    unfold phaseOneOutcome.
    rewrite !(reaches_phaseOneCounts V0), !(reaches_phaseOneCounts V1) by done.
    by rewrite !(count_values _ _ _ _ Hp).
  - unfold processPhaseTwoMessages. rewrite <- Hst.
    destruct (killed (state n1)); [done|]. simpl.
    rewrite !bucket_ensure, <- Hst.
    apply phaseTwoOutcome_reads; rewrite ?(phaseTwoCounts_lookup V0),
      ?(phaseTwoCounts_lookup V1); by rewrite (count_values _ _ _ _ Hp).
Qed.

(** ** The coin *)

(** X13.  The coin is read only under the adoption threshold: when the
    count of 0 or the count of 1 reaches [adoptionThreshold], the
    phase-2 tally leaves the node the same whatever [Math.random]
    gives. *)
Theorem coin_only_below_adoption (cfg : Config) (n : Node) :
  let own := x (state n) in
  let messages := bucket (keyOf (k (state n))) (phaseTwoMessages n) in
  adoptionThreshold cfg ≤ count V0 own messages
  ∨ adoptionThreshold cfg ≤ count V1 own messages →
  processPhaseTwoMessages cfg true n = processPhaseTwoMessages cfg false n.
Proof.
  intros own messages Hreach. unfold processPhaseTwoMessages.
  destruct (killed (state n)); [done|]. simpl.
  rewrite bucket_ensure. fold own messages. f_equal.
  unfold phaseTwoOutcome, adoptionThreshold in *.
  rewrite !(reaches_phaseTwoCounts V0), !(reaches_phaseTwoCounts V1).
  repeat case_bool_decide; simpl; try reflexivity; exfalso; tauto.
Qed.

(** ** No value from nowhere in phase 1 *)

Lemma occurrences_pos v (messages : list Msg) :
  0 < occurrences v messages → ∃ m, m ∈ messages ∧ msg_value m = v.
Proof.
  unfold occurrences. intros Hpos.
  destruct (filter (λ m, msg_value m = v) messages) as [|m l] eqn:E;
    [simpl in Hpos; lia|].
  assert (m ∈ filter (λ m, msg_value m = v) messages) as Hin
    by (rewrite E; apply list_elem_of_here).
  apply list_elem_of_filter in Hin as [Hv Hin]. eauto.
Qed.

(** X15.  With [N >= 0], the phase-1 tally of a live node never makes up
    a value: when it sets [x] to 0 or to 1, that value was the node's
    own or is carried by a message of the bucket of the round. *)
Theorem phase_one_adopts_only_votes (cfg : Config) (n : Node) (v : Value) :
  0 ≤ N cfg →
  killed (state n) = false →
  v ≠ VQ →
  x (state (processPhaseOneMessages cfg n)) = Some v →
  x (state n) = Some v
  ∨ ∃ m, m ∈ bucket (keyOf (k (state n))) (phaseOneMessages n)
         ∧ msg_value m = to_wire (Some v).
Proof.
  intros HN Hk Hv. unfold processPhaseOneMessages. rewrite Hk. simpl.
  rewrite bucket_ensure.
  set (messages := bucket (keyOf (k (state n))) (phaseOneMessages n)).
  set (own := x (state n)).
  intros [= Hout].
  assert (N cfg / 2 + 1 ≤ count v own messages) as Hreach.
  { unfold phaseOneOutcome in Hout.
    rewrite (reaches_phaseOneCounts V0), (reaches_phaseOneCounts V1) in Hout
      by done.
    repeat case_bool_decide; subst; done. }
  assert (0 ≤ N cfg / 2) as Hhalf by (apply Z.div_pos; lia).
  unfold count, ownCount in Hreach.
  destruct (decide (own = Some v)) as [He|He]; [by left|]. right.
  rewrite bool_decide_eq_false_2 in Hreach by done.
  apply occurrences_pos. simpl in Hreach. lia.
Qed.

(** ** The loop of a killed node winds down *)

Lemma run_single cfg evs n :
  (length (tasks n) ≤ 1)%nat
  ∧ (consensusRunning n = false → killed (state n) = false → tasks n = []) →
  (length (tasks (run cfg evs n)) ≤ 1)%nat.
Proof.
  revert n. induction evs as [|ev evs IH]; intros n Hn; simpl; [apply Hn|].
  apply IH. by apply step_single.
Qed.

Lemma set_tasks_same n : set_tasks (tasks n) n = n.
Proof. by destruct n. Qed.

Lemma killed_wake cfg o pc n :
  killed (state n) = true →
  tasks n = [pc] →
  step cfg n (Resume 0 o)
  = set_tasks
      match pc with
      | AwaitBroadcast ph =>
          if keepWaiting cfg o ph (k (state n)) n
          then [AwaitPoll ph (k (state n))] else [AwaitRoundDelay]
      | AwaitPoll _ _ => [AwaitRoundDelay]
      | AwaitRoundDelay => []
      end n.
Proof.
  intros Hk Ht. simpl. rewrite Ht. simpl.
  destruct pc as [ph|ph currentK|]; simpl.
  - unfold waitForMessages, pollMessages.
    destruct (keepWaiting cfg o ph (k (state n)) n); simpl.
    + by rewrite Ht.
    + rewrite killed_afterWait by done. simpl. by rewrite Ht.
  - rewrite Hk, killed_afterWait by done. simpl. by rewrite Ht.
  - unfold roundLoop. rewrite Hk, andb_false_r. simpl. by rewrite Ht.
Qed.

Lemma idle_wake cfg o n : tasks n = [] → step cfg n (Resume 0 o) = n.
Proof. intros Ht. simpl. by rewrite Ht. Qed.

Lemma killed_three_wakes cfg o1 o2 o3 n :
  killed (state n) = true →
  (length (tasks n) ≤ 1)%nat →
  run cfg [Resume 0 o1; Resume 0 o2; Resume 0 o3] n = set_tasks [] n.
Proof.
  intros Hk Hlen.
  assert (∀ o, step cfg (set_tasks [] n) (Resume 0 o) = set_tasks [] n)
    as Hidle by done.
  assert (∀ o, step cfg (set_tasks [AwaitRoundDelay] n) (Resume 0 o)
               = set_tasks [] n) as Hdelay.
  { intros o.
    by rewrite (killed_wake cfg o AwaitRoundDelay
                  (set_tasks [AwaitRoundDelay] n) Hk eq_refl). }
  assert (∀ o ph ck, step cfg (set_tasks [AwaitPoll ph ck] n) (Resume 0 o)
                     = set_tasks [AwaitRoundDelay] n) as Hpoll.
  { intros o ph ck.
    by rewrite (killed_wake cfg o (AwaitPoll ph ck)
                  (set_tasks [AwaitPoll ph ck] n) Hk eq_refl). }
  destruct (tasks n) as [|pc [|pc' l]] eqn:Ht; [| |simpl in Hlen; lia].
  - rewrite <- (set_tasks_same n), Ht. unfold run. simpl foldl.
    reflexivity.
  - unfold run. cbn [foldl].
    rewrite (killed_wake cfg o1 pc n Hk Ht).
    destruct pc as [ph|ph currentK|].
    + destruct (keepWaiting cfg o1 ph (k (state n)) n).
      * by rewrite Hpoll, Hdelay.
      * by rewrite Hdelay, Hidle.
    + by rewrite Hdelay, Hidle.
    + by rewrite !Hidle.
Qed.

(** X10.  Once [/stop] is served, three wake-ups at most end the loop:
    after any execution, a [/stop] and three wake-ups, no activation is
    suspended any more, and nothing else of the node has changed since
    the [/stop]: the state, the buffers and the requests sent are those
    the [/stop] left. *)
Theorem killed_loop_winds_down (cfg : Config) (evs : list Event)
    (o1 o2 o3 : Oracle) :
  let stopped := (handle cfg GetStop (run cfg evs (init cfg))).1 in
  run cfg [Resume 0%nat o1; Resume 0%nat o2; Resume 0%nat o3] stopped
  = set_tasks [] stopped.
Proof.
  intros stopped. apply killed_three_wakes; [done|].
  unfold stopped. simpl. apply run_single. simpl. split; [lia|done].
Qed.

(** ** A decided node goes silent *)

Lemma step_decided_quiet cfg n ev :
  invariant cfg n →
  decided (state n) = Some true →
  k (state (step cfg n ev)) = k (state n)
  ∧ outbox (step cfg n ev) = outbox n.
Proof.
  intros Hinv Hd. destruct ev as [[| b | | |]|i o]; simpl.
  - unfold statusHandler. by destruct (isFaulty cfg).
  - destruct (messageHandler_frame cfg b n) as (-> & _ & _ & ->). done.
  - unfold startHandler.
    destruct (isFaulty cfg || killed (state n)) eqn:E; simpl; [done|].
    destruct (consensusRunning n) eqn:Er; simpl; [done|].
    apply orb_false_iff in E as [Ef Ek].
    destruct Hinv as (_ & Hfresh & _). destruct (Hfresh Er Ek) as [_ Hst].
    rewrite Hst in Hd. simpl in Hd. rewrite Ef in Hd. done.
  - done.
  - done.
  - destruct (tasks n !! i) as [pc|] eqn:Ei; [|done].
    destruct Hinv as (Hc & _ & Ht & Hb).
    destruct Ht as [Ht|(pc0 & Ht & Hs & Hp)]; [by rewrite Ht in Ei|].
    rewrite Ht in Ei. destruct i as [|i]; [|done]. simplify_eq/=.
    destruct (resume_ok cfg o pc n) as (_ & _ & Hres); [done|done|auto|].
    rewrite (Hres Hd). done.
Qed.

Lemma decided_wake cfg n o :
  invariant cfg n →
  decided (state n) = Some true →
  tasks (step cfg n (Resume 0 o)) = [].
Proof.
  intros (Hc & _ & Ht & Hb) Hd. simpl.
  destruct Ht as [Ht|(pc & Ht & Hs & Hp)]; rewrite Ht; simpl; [done|].
  destruct (resume_ok cfg o pc n) as (_ & _ & Hres); [done|done|auto|].
  rewrite (Hres Hd). simpl. by rewrite Ht.
Qed.

(** X11.  On a non-faulty node started from 0 or 1, from any point of an
    execution where [decided] is [true]: the next wake-up of the loop
    ends it, and whatever requests and wake-ups follow, [k] stays at
    the round of the decision and no further request is sent to any
    peer. *)
Theorem decided_node_goes_silent (cfg : Config) (evs1 evs2 : list Event)
    (o : Oracle) :
  isFaulty cfg = false →
  initialValue cfg ≠ VQ →
  let n1 := run cfg evs1 (init cfg) in
  let n2 := run cfg evs2 n1 in
  decided (state n1) = Some true →
  tasks (step cfg n1 (Resume 0%nat o)) = []
  ∧ k (state n2) = k (state n1)
  ∧ outbox n2 = outbox n1.
Proof.
  intros Hf Hv n1 n2 Hd.
  assert (invariant cfg n1) as Hinv
    by (apply run_invariant; auto using init_invariant).
  split; [by apply decided_wake|].
  unfold n2. clear n2. generalize dependent n1. clear evs1.
  induction evs2 as [|ev evs IH]; intros n Hd Hinv; simpl; [done|].
  destruct (step_decided_quiet cfg n ev Hinv Hd) as [Hk Ho].
  destruct (step_decided cfg n ev Hinv Hd) as [Hd' _].
  destruct (IH (step cfg n ev) Hd') as [Hk' Ho']; [by apply step_invariant|].
  split; congruence.
Qed.

(** ** A node that hears nobody *)

Lemma processPhaseOne_alone cfg n :
  2 ≤ N cfg →
  killed (state n) = false →
  bucket (keyOf (k (state n))) (phaseOneMessages n) = [] →
  x (state (processPhaseOneMessages cfg n)) = Some VQ.
Proof.
  intros HN Hk Hb. unfold processPhaseOneMessages. rewrite Hk. simpl.
  rewrite bucket_ensure, Hb. f_equal. unfold phaseOneOutcome.
  rewrite (reaches_phaseOneCounts V0), (reaches_phaseOneCounts V1) by done.
  assert (1 ≤ N cfg / 2) as Hhalf.
  { apply Z.div_le_lower_bound; lia. }
  unfold count, ownCount. rewrite !occurrences_nil.
  destruct (x (state n)) as [[]|]; simpl;
    rewrite !bool_decide_eq_false_2 by lia; reflexivity.
Qed.

Lemma processPhaseTwo_undecided cfg coin n :
  x (state n) = Some VQ →
  decided (state (processPhaseTwoMessages cfg coin n)) = decided (state n).
Proof.
  intros Hx. unfold processPhaseTwoMessages.
  destruct (killed (state n)); [done|]. simpl.
  unfold phaseTwoOutcome. rewrite Hx.
  rewrite !bool_decide_eq_false_2, !andb_false_r by done.
  repeat case_match; done.
Qed.

Lemma roundEnd_unheard n :
  decided (state (roundEnd n).1) = decided (state n)
  ∧ ∀ pc, (roundEnd n).2 = Some pc → ¬ inPhaseTwo pc.
Proof.
  unfold roundEnd. split.
  - by destruct (negb _ && negb _).
  - intros pc [= <-]. simpl. tauto.
Qed.

Lemma runPhaseTwo_unheard cfg n :
  (killed (state n) = false → x (state n) = Some VQ) →
  decided (state (runPhaseTwo cfg n).1) = decided (state n)
  ∧ ∀ pc, (runPhaseTwo cfg n).2 = Some pc → inPhaseTwo pc →
          x (state (runPhaseTwo cfg n).1) = Some VQ.
Proof.
  intros Hx. unfold runPhaseTwo.
  destruct (killed (state n)) eqn:Ek; simpl.
  - destruct (roundEnd_unheard n) as [Hd Hp]. split; [done|].
    intros pc Hpc Hin. by destruct (Hp pc Hpc).
  - destruct (truthy (decided (state n))); simpl.
    + destruct (roundEnd_unheard n) as [Hd Hp]. split; [done|].
      intros pc Hpc Hin. by destruct (Hp pc Hpc).
    + split; [done|]. intros pc _ _. by apply Hx.
Qed.

Lemma afterWait_unheard cfg o ph n :
  2 ≤ N cfg →
  (∀ key, bucket key (phaseOneMessages n) = []) →
  (ph = PhaseTwo → x (state n) = Some VQ) →
  decided (state (afterWait cfg o ph n).1) = decided (state n)
  ∧ ∀ pc, (afterWait cfg o ph n).2 = Some pc → inPhaseTwo pc →
          x (state (afterWait cfg o ph n).1) = Some VQ.
Proof.
  intros HN Hb Hx. destruct ph; unfold afterWait.
  - destruct (processPhaseOne_frame cfg n) as ((_ & _ & Hk) & Hd & _).
    destruct (runPhaseTwo_unheard cfg (processPhaseOneMessages cfg n))
      as [Hd' Hp].
    + intros Hl. rewrite Hk in Hl. by apply processPhaseOne_alone.
    + split; [congruence | done].
  - destruct (roundEnd_unheard (processPhaseTwoMessages cfg (randomLow o) n))
      as [Hd Hp].
    split.
    + rewrite Hd. apply processPhaseTwo_undecided. by apply Hx.
    + intros pc Hpc Hin. by destruct (Hp pc Hpc).
Qed.

Lemma roundLoop_unheard cfg n :
  decided (state n) = Some false →
  decided (state (roundLoop cfg n).1) = Some false
  ∧ ∀ pc, (roundLoop cfg n).2 = Some pc → inPhaseTwo pc →
          x (state (roundLoop cfg n).1) = Some VQ.
Proof.
  intros Hd. unfold roundLoop, runPhaseOne. rewrite Hd. simpl.
  destruct (killed (state n)) eqn:Ek; simpl; [by split|].
  split; [done|]. intros pc [= <-] [].
Qed.

Lemma resume_unheard cfg o pc n :
  2 ≤ N cfg →
  decided (state n) = Some false →
  (∀ key, bucket key (phaseOneMessages n) = []) →
  (inPhaseTwo pc → x (state n) = Some VQ) →
  decided (state (resume cfg o pc n).1) = Some false
  ∧ ∀ pc', (resume cfg o pc n).2 = Some pc' → inPhaseTwo pc' →
           x (state (resume cfg o pc n).1) = Some VQ.
Proof.
  intros HN Hd Hb Hx.
  assert (∀ ph currentK,
            (inPhaseTwo (AwaitBroadcast ph) → x (state n) = Some VQ) →
            decided (state (pollMessages cfg o ph currentK n).1) = Some false
            ∧ ∀ pc', (pollMessages cfg o ph currentK n).2 = Some pc' →
                     inPhaseTwo pc' →
                     x (state (pollMessages cfg o ph currentK n).1) = Some VQ)
    as Hpoll.
  { intros ph currentK Hph. unfold pollMessages.
    destruct (keepWaiting cfg o ph currentK n); simpl.
    - split; [done|]. intros pc' [= <-] Hin. apply Hph. by destruct ph.
    - destruct (afterWait_unheard cfg o ph n HN Hb) as [Hd' Hp].
      + intros ->. by apply Hph.
      + split; [congruence | done]. }
  destruct pc as [ph|ph currentK|]; simpl.
  - by apply Hpoll.
  - assert (inPhaseTwo (AwaitBroadcast ph) → x (state n) = Some VQ) as Hph
      by (by destruct ph).
    destruct (killed (state n)); [|by apply Hpoll].
    destruct (afterWait_unheard cfg o ph n HN Hb) as [Hd' Hp].
    + intros ->. by apply Hph.
    + split; [congruence | done].
  - by apply roundLoop_unheard.
Qed.

Lemma step_unheard cfg n ev :
  isFaulty cfg = false → 2 ≤ N cfg →
  (∀ b, ev ≠ Req (PostMessage b)) →
  unheard n → unheard (step cfg n ev).
Proof.
  intros Hf HN Hev Hn. pose proof Hn as (Hd & H1 & H2 & Hfresh & Ht).
  destruct ev as [[| b | | |]|i o]; simpl.
  - unfold statusHandler. by destruct (isFaulty cfg).
  - by destruct (Hev b).
  - unfold startHandler. rewrite Hf. simpl.
    destruct (killed (state n)) eqn:Ek; simpl; [exact Hn|].
    destruct (consensusRunning n) eqn:Er; simpl; [exact Hn|].
    unfold startConsensus.
    rewrite bool_decide_eq_false_2 by lia. simpl.
    destruct (roundLoop_grows cfg (set_consensusRunning true n))
      as (Ht' & Hr' & Hk' & Hb1 & Hb2 & _).
    destruct (roundLoop_unheard cfg (set_consensusRunning true n) Hd)
      as [Hd' Hp'].
    destruct (roundLoop cfg (set_consensusRunning true n)) as [n' next].
    simpl in *. unfold unheard. simpl.
    rewrite Hr', Ht', (Hfresh eq_refl eq_refl). simpl.
    split; [done|]. split; [intros key; by rewrite Hb1|].
    split; [intros key; by rewrite Hb2|]. split; [done|].
    destruct next as [pc|]; simpl; [|by left].
    right. exists pc. split; [done|]. by apply Hp'.
  - unfold unheard. simpl. split; [done|]. split; [done|]. split; [done|].
    split; [done|]. exact Ht.
  - exact Hn.
  - destruct (tasks n !! i) as [pc|] eqn:Ei; [|exact Hn].
    destruct Ht as [Ht|(pc0 & Ht & Hx)]; [by rewrite Ht in Ei|].
    rewrite Ht in Ei. destruct i as [|i]; [|done]. simplify_eq/=.
    destruct (resume_grows cfg o pc n) as (Ht' & Hr' & Hk' & Hb1 & Hb2 & _).
    destruct (resume_unheard cfg o pc n HN Hd H1 Hx) as [Hd' Hp'].
    assert (¬ (consensusRunning n = false ∧ killed (state n) = false)) as Hrun.
    { intros [Ha Hb]. by rewrite (Hfresh Ha Hb) in Ht. }
    destruct (resume cfg o pc n) as [n' next]. simpl in *.
    destruct next as [pc'|]; unfold unheard; simpl;
      rewrite Ht', Ht, Hr', Hk'; simpl.
    + split; [done|]. split; [intros key; by rewrite Hb1|].
      split; [intros key; by rewrite Hb2|]. split; [tauto|].
      right. exists pc'. split; [done|]. by apply Hp'.
    + split; [done|]. split; [intros key; by rewrite Hb1|].
      split; [intros key; by rewrite Hb2|]. split; [tauto|]. by left.
Qed.

(** X14.  A non-faulty node among [N >= 2] that no message reaches never
    decides: whatever [/start], [/stop], [/status], [/getState] requests
    and wake-ups come, as long as no [/message] is served [decided]
    stays [false]; every phase-1 tally gives "?" and a node holding "?"
    cannot decide in phase 2. *)
Theorem isolated_node_never_decides (cfg : Config) (evs : list Event) :
  isFaulty cfg = false →
  2 ≤ N cfg →
  noDelivery evs →
  decided (state (run cfg evs (init cfg))) = Some false.
Proof.
  intros Hf HN Hevs.
  assert (unheard (init cfg)) as H0.
  { unfold unheard. simpl. rewrite Hf. repeat split; auto. }
  assert (∀ n, unheard n → unheard (run cfg evs n)) as Hrun.
  { induction Hevs as [|ev evs Hev Hevs IH]; intros n Hn; simpl; [done|].
    apply IH. by apply step_unheard. }
  apply (Hrun _ H0).
Qed.

(** ** What the node sends *)

Lemma broadcast_sendable cfg phase value round n :
  phase = 1 ∨ phase = 2 →
  is_Some value → is_Some round →
  (phase = 1 → binary value) →
  Forall (sendable cfg) (outbox n) →
  Forall (sendable cfg) (outbox (broadcastMessage cfg phase value round n)).
Proof.
  intros Hph [v ->] [r ->] Hbin Hout. unfold broadcastMessage. simpl.
  apply Forall_app. split; [done|].
  apply Forall_fmap, Forall_forall. intros i Hi.
  apply list_elem_of_filter in Hi as [Hne Hi]. apply elem_of_seqZ in Hi.
  unfold sendable. simpl.
  split; [lia|]. split; [done|]. split; [|split; [done|]].
  - unfold wellFormed, strict_eq. simpl.
    destruct Hph as [-> | ->], v; reflexivity.
  - intros [= ->]. destruct (Hbin eq_refl) as [[= ->]|[= ->]]; auto.
Qed.

Lemma processPhaseOne_outbox cfg n :
  outbox (processPhaseOneMessages cfg n) = outbox n.
Proof. unfold processPhaseOneMessages. by destruct (killed (state n)). Qed.

Lemma processPhaseTwo_outbox cfg coin n :
  outbox (processPhaseTwoMessages cfg coin n) = outbox n.
Proof. unfold processPhaseTwoMessages. by destruct (killed (state n)). Qed.

Lemma roundEnd_outbox n : outbox (roundEnd n).1 = outbox n.
Proof. unfold roundEnd. by destruct (negb _ && negb _). Qed.

Lemma runPhaseTwo_sendable cfg n :
  concrete (state n) →
  Forall (sendable cfg) (outbox n) →
  Forall (sendable cfg) (outbox (runPhaseTwo cfg n).1).
Proof.
  intros (Hx & _ & Hr) Hout. unfold runPhaseTwo.
  destruct (killed (state n) || truthy (decided (state n))).
  - by rewrite roundEnd_outbox.
  - apply broadcast_sendable; auto. intros [=].
Qed.

Lemma afterWait_sendable cfg o ph n :
  concrete (state n) →
  Forall (sendable cfg) (outbox n) →
  Forall (sendable cfg) (outbox (afterWait cfg o ph n).1).
Proof.
  intros (Hx & Hd & Hr) Hout. destruct ph; unfold afterWait.
  - destruct (processPhaseOne_frame cfg n) as (_ & Hd' & Hk' & Hx').
    apply runPhaseTwo_sendable.
    + unfold concrete. rewrite Hd', Hk'. auto.
    + by rewrite processPhaseOne_outbox.
  - by rewrite roundEnd_outbox, processPhaseTwo_outbox.
Qed.

Lemma roundLoop_sendable cfg n :
  concrete (state n) →
  killed (state n) = true ∨ binary (x (state n)) →
  Forall (sendable cfg) (outbox n) →
  Forall (sendable cfg) (outbox (roundLoop cfg n).1).
Proof.
  intros (Hx & Hd & Hr) Hkx Hout. unfold roundLoop, runPhaseOne.
  destruct (truthy (decided (state n))); simpl; [done|].
  destruct (killed (state n)); simpl; [done|].
  destruct Hkx as [?|Hb]; [done|].
  apply broadcast_sendable; auto.
Qed.

Lemma resume_sendable cfg o pc n :
  concrete (state n) →
  suspendedAt (state n) pc →
  Forall (sendable cfg) (outbox n) →
  Forall (sendable cfg) (outbox (resume cfg o pc n).1).
Proof.
  intros Hc Hs Hout.
  assert (∀ ph currentK,
            Forall (sendable cfg) (outbox (pollMessages cfg o ph currentK n).1))
    as Hpoll.
  { intros ph currentK. unfold pollMessages.
    destruct (keepWaiting cfg o ph currentK n); [done|].
    by apply afterWait_sendable. }
  destruct pc as [ph|ph currentK|]; simpl.
  - apply Hpoll.
  - destruct (killed (state n)); [by apply afterWait_sendable | apply Hpoll].
  - by apply roundLoop_sendable.
Qed.

Lemma step_sendable cfg n ev :
  isFaulty cfg = false → initialValue cfg ≠ VQ →
  invariant cfg n →
  Forall (sendable cfg) (outbox n) →
  Forall (sendable cfg) (outbox (step cfg n ev)).
Proof.
  intros Hf Hv (Hc & Hfresh & Ht & _) Hout.
  destruct ev as [[| b | | |]|i o]; simpl.
  - unfold statusHandler. by destruct (isFaulty cfg).
  - by destruct (messageHandler_frame cfg b n) as (_ & _ & _ & ->).
  - unfold startHandler. rewrite Hf. simpl.
    destruct (killed (state n)) eqn:Ek; simpl; [done|].
    destruct (consensusRunning n) eqn:Er; simpl; [done|].
    destruct (Hfresh eq_refl eq_refl) as [_ Hst].
    unfold startConsensus.
    destruct (bool_decide (N cfg = 1) && negb (isFaulty cfg)); simpl; [done|].
    apply (roundLoop_sendable cfg (set_consensusRunning true n)); auto.
    right. simpl. rewrite Hst. simpl. rewrite Hf.
    by apply binary_initialValue.
  - done.
  - done.
  - destruct (tasks n !! i) as [pc|] eqn:Ei; [|done].
    destruct Ht as [Ht|(pc0 & Ht & Hs & _)]; [by rewrite Ht in Ei|].
    rewrite Ht in Ei. destruct i as [|i]; [|done]. simplify_eq/=.
    pose proof (resume_sendable cfg o pc n Hc Hs Hout) as H.
    destruct (resume cfg o pc n) as [n' [pc'|]]; exact H.
Qed.

(** X12.  On a non-faulty node started from 0 or 1, every request the
    node has sent at any point of an execution goes to a peer in
    [[0, N)] other than itself and carries a well-formed body
    [{phase: 1|2, value: 0|1|"?", k: int, from: nodeId}]; the bodies of
    phase 1 never carry "?". *)
Theorem sent_messages_well_formed (cfg : Config) (evs : list Event) :
  isFaulty cfg = false →
  initialValue cfg ≠ VQ →
  Forall (sendable cfg) (outbox (run cfg evs (init cfg))).
Proof.
  intros Hf Hv.
  assert (∀ n, invariant cfg n → Forall (sendable cfg) (outbox n) →
               Forall (sendable cfg) (outbox (run cfg evs n))) as Hrun.
  { induction evs as [|ev evs IH]; intros n Hinv Hout; simpl; [done|].
    apply IH; [by apply step_invariant | by apply step_sendable]. }
  apply Hrun; [by apply init_invariant | by apply Forall_nil].
Qed.

(** ** A round under timeouts *)

Lemma runPhaseTwo_decided cfg n :
  decided (state (runPhaseTwo cfg n).1) = decided (state n).
Proof.
  unfold runPhaseTwo.
  destruct (killed (state n) || truthy (decided (state n))); [|done].
  apply roundEnd_unheard.
Qed.

Lemma afterWait_decided cfg o ph n :
  decided (state n) = Some true →
  decided (state (afterWait cfg o ph n).1) = Some true.
Proof.
  intros Hd. destruct ph; unfold afterWait.
  - rewrite runPhaseTwo_decided.
    destruct (processPhaseOne_frame cfg n) as (_ & -> & _). done.
  - destruct (roundEnd_unheard (processPhaseTwoMessages cfg (randomLow o) n))
      as [-> _].
    destruct (processPhaseTwo_frame cfg (randomLow o) n)
      as (_ & _ & Hdead & Hlive).
    destruct (killed (state n)); [by rewrite Hdead|].
    destruct (Hlive eq_refl) as [(-> & _)|(-> & _)]; done.
Qed.

Lemma resume_decided cfg o pc n :
  decided (state n) = Some true →
  decided (state (resume cfg o pc n).1) = Some true.
Proof.
  intros Hd.
  assert (∀ ph currentK,
            decided (state (pollMessages cfg o ph currentK n).1) = Some true)
    as Hpoll.
  { intros ph currentK. unfold pollMessages.
    destruct (keepWaiting cfg o ph currentK n);
      [done | by apply afterWait_decided]. }
  destruct pc as [ph|ph currentK|]; simpl.
  - apply Hpoll.
  - destruct (killed (state n)); [by apply afterWait_decided | apply Hpoll].
  - unfold roundLoop. rewrite Hd. done.
Qed.

Lemma pastRound_wake cfg o n r :
  pastRound r (state n) →
  pastRound r (state (step cfg n (Resume 0 o))).
Proof.
  intros Hp. simpl.
  destruct (tasks n !! 0%nat) as [pc|]; [|done].
  assert (pastRound r (state (resume cfg o pc n).1)) as Hr.
  { destruct Hp as [Hd|(r' & Hr' & Hlt)].
    - left. by apply resume_decided.
    - right. destruct (resume_advances cfg o pc n) as [Hk|Hk];
        rewrite Hr' in Hk; simpl in Hk; eexists; split; eauto; lia. }
  destruct (resume cfg o pc n) as [n' [pc'|]]; exact Hr.
Qed.

Lemma afterWait_progress cfg o ph n r :
  killed (state n) = false →
  decided (state n) = Some false →
  k (state n) = Some r →
  match ph with
  | PhaseOne =>
      decided (state (afterWait cfg o ph n).1) = Some false
      ∧ k (state (afterWait cfg o ph n).1) = Some r
      ∧ (afterWait cfg o ph n).2 = Some (AwaitBroadcast PhaseTwo)
  | PhaseTwo => pastRound r (state (afterWait cfg o ph n).1)
  end.
Proof.
  intros Hk Hd Hr. destruct ph; unfold afterWait.
  - destruct (processPhaseOne_frame cfg n) as ((_ & _ & Hk') & Hd' & Hr' & _).
    unfold runPhaseTwo. rewrite Hk', Hd', Hk, Hd. simpl.
    rewrite Hd', Hr'. done.
  - destruct (processPhaseTwo_frame cfg (randomLow o) n)
      as ((_ & _ & Hk') & Hr' & _ & Hlive).
    unfold roundEnd. rewrite Hk', Hk.
    destruct (Hlive Hk) as [(Hd' & _)|(Hd' & _)].
    + rewrite Hd'. simpl. left. done.
    + rewrite Hd', Hd. simpl. right. exists (r + 1).
      rewrite Hr', Hr. simpl. split; [done | lia].
Qed.

Lemma keepWaiting_timeLeft cfg o ph currentK n :
  keepWaiting cfg o ph currentK n = true → timeLeft o = true.
Proof. unfold keepWaiting. by intros [? _]%andb_true_iff. Qed.

Lemma wake_killed cfg o n :
  killed (state (step cfg n (Resume 0 o))) = killed (state n).
Proof.
  simpl. destruct (tasks n !! 0%nat) as [pc|]; [|done].
  destruct (resume_grows cfg o pc n) as (_ & _ & Hk & _).
  destruct (resume cfg o pc n) as [n' [pc'|]]; exact Hk.
Qed.

Lemma wake_single cfg o n pc :
  tasks n = [pc] →
  state (step cfg n (Resume 0 o)) = state (resume cfg o pc n).1
  ∧ tasks (step cfg n (Resume 0 o)) = option_list (resume cfg o pc n).2.
Proof.
  intros Ht. simpl. rewrite Ht. simpl.
  destruct (resume_grows cfg o pc n) as (Ht' & _).
  destruct (resume cfg o pc n) as [n' [pc'|]]; simpl in *;
    rewrite Ht', Ht; done.
Qed.

(** One wake-up of a live node in round [r]: it does not fall back,
    and it moves on when the time of the wait is out. *)
Lemma inRound_wake cfg o n r m :
  inRound r m n →
  inRound r m (step cfg n (Resume 0 o))
  ∧ (timeLeft o = false → inRound r (pred m) (step cfg n (Resume 0 o))).
Proof.
  intros [Hk Hn].
  assert (killed (state (step cfg n (Resume 0 o))) = false) as Hk'
    by (by rewrite wake_killed).
  destruct Hn as [Hp|(Hd & Hr & pc & Ht & Hpc & Hm)].
  { pose proof (pastRound_wake cfg o n r Hp) as Hp'.
    split; [|intros _]; (split; [done | by left]). }
  assert (∀ ph currentK,
            let res := pollMessages cfg o ph currentK n in
            pastRound r (state res.1)
            ∨ (decided (state res.1) = Some false ∧ k (state res.1) = Some r
               ∧ ∃ pc', res.2 = Some pc' ∧ pc' ≠ AwaitRoundDelay
                   ∧ (waitRank pc' ≤ waitRank (AwaitPoll ph currentK))%nat
                   ∧ (timeLeft o = false →
                      (waitRank pc' < waitRank (AwaitPoll ph currentK))%nat)))
    as Hpoll.
  { intros ph currentK. unfold pollMessages.
    destruct (keepWaiting cfg o ph currentK n) eqn:Ekw; simpl.
    - right. split; [done|]. split; [done|].
      exists (AwaitPoll ph currentK). split; [done|]. split; [done|].
      split; [done|]. intros Ho.
      apply keepWaiting_timeLeft in Ekw. congruence.
    - pose proof (afterWait_progress cfg o ph n r Hk Hd Hr) as Hp.
      destruct ph; [|by left].
      destruct Hp as (Hd' & Hr' & Hnext). right.
      split; [done|]. split; [done|].
      exists (AwaitBroadcast PhaseTwo). simpl.
      split; [done|]. split; [done|]. split; [lia|]. intros _. lia. }
  assert (let res := resume cfg o pc n in
          pastRound r (state res.1)
          ∨ (decided (state res.1) = Some false ∧ k (state res.1) = Some r
             ∧ ∃ pc', res.2 = Some pc' ∧ pc' ≠ AwaitRoundDelay
                 ∧ (waitRank pc' ≤ waitRank pc)%nat
                 ∧ (timeLeft o = false → (waitRank pc' < waitRank pc)%nat)))
    as Hres.
  { destruct pc as [ph|ph currentK|]; [| |done]; simpl.
    - destruct (Hpoll ph (k (state n)))
        as [Hp|(Hd' & Hr' & pc' & Hn' & Hne & Hle & Hlt)]; [by left|].
      right. split; [done|]. split; [done|]. exists pc'.
      split; [done|]. split; [done|].
      destruct ph; simpl in *; split; try lia; intros _; lia.
    - rewrite Hk. apply Hpoll. }
  destruct (wake_single cfg o n pc Ht) as [Hst Hts].
  cbv zeta in Hres. unfold inRound. rewrite Hk', Hst, Hts.
  destruct Hres as [Hp|(Hd' & Hr' & pc' & Hnext & Hne & Hle & Hlt)].
  { split; [|intros _]; (split; [done | by left]). }
  rewrite Hnext. simpl.
  split; [|intros Ho; specialize (Hlt Ho)];
    (split; [done|]); right; (split; [done|]); (split; [done|]);
    exists pc'; (split; [done|]); (split; [done|]); lia.
Qed.

Lemma inRound_done r n : inRound r 0 n → pastRound r (state n).
Proof.
  intros [_ [Hp|(_ & _ & pc & _ & Hne & Hm)]]; [done|].
  destruct pc as [[]|[]|]; simpl in Hm; try lia. done.
Qed.

Lemma inRound_run cfg os n r m :
  inRound r m n →
  (m ≤ length (timedOuts os))%nat →
  pastRound r (state (run cfg (Resume 0%nat <$> os) n)).
Proof.
  revert n m. induction os as [|o os IH]; intros n m Hn Hm; simpl in *.
  - apply inRound_done. by replace m with 0%nat in Hn by lia.
  - destruct (inRound_wake cfg o n r m Hn) as [Hsame Hout].
    unfold timedOuts in Hm. rewrite filter_cons in Hm.
    destruct (decide (timeLeft o = false)) as [Ho|Ho]; simpl in Hm.
    + apply (IH _ (pred m)); [by apply Hout | unfold timedOuts; lia].
    + by apply (IH _ m).
Qed.

(** X7.  The bounded wait guarantees progress: from the start of round
    [r] on a live undecided node, whatever the buffers hold and however
    the waits go, once four wake-ups of the loop have found the time of
    the wait out the round is over: the node has decided, or [k] is
    beyond [r].  Wake-ups that find time left never set the loop
    back. *)
Theorem timeouts_complete_round (cfg : Config) (os : list Oracle)
    (n : Node) (r : Z) :
  tasks n = [AwaitBroadcast PhaseOne] →
  killed (state n) = false →
  decided (state n) = Some false →
  k (state n) = Some r →
  (4 ≤ length (timedOuts os))%nat →
  let n' := run cfg (Resume 0%nat <$> os) n in
  decided (state n') = Some true
  ∨ ∃ r', k (state n') = Some r' ∧ r < r'.
Proof.
  intros Ht Hk Hd Hr Hos.
  apply (inRound_run cfg os n r 4); [|done].
  split; [done|]. right. split; [done|]. split; [done|].
  exists (AwaitBroadcast PhaseOne). simpl. split; [done|]. split; [done|lia].
Qed.

(** ** A round name that objects inherit *)

Lemma keyOf_own (r : option Z) : inherited (keyOf r) = false.
Proof.
  destruct r as [z|]; [|reflexivity].
  unfold keyOf. simpl. unfold decimal.
  destruct (Z.to_int z) as [d|d]; simpl; [|reflexivity].
  destruct d; reflexivity.
Qed.

Lemma ownBuckets_ensure (key : string) (buf : Buffer) :
  ownBuckets buf → ownBuckets (ensure_bucket key buf).
Proof.
  intros Hb key' Hi. unfold ensure_bucket.
  destruct (buf !! key) as [l|] eqn:E; [by apply Hb|].
  destruct (inherited key) eqn:Hk; [by apply Hb|].
  rewrite lookup_insert_ne; [by apply Hb | congruence].
Qed.

Lemma ownBuckets_delivered (key : string) (m : Msg) (buf : Buffer) :
  ownBuckets buf → ownBuckets (delivered key m buf).
Proof.
  intros Hb key' Hi. rewrite delivered_unfold.
  destruct (buf !! key) as [l|] eqn:E.
  - rewrite lookup_insert_ne; [by apply Hb|].
    intros ->. by rewrite (Hb key' Hi) in E.
  - destruct (inherited key) eqn:Hk; [by apply Hb|].
    rewrite lookup_insert_ne; [by apply Hb | congruence].
Qed.
Lemma tallies_buffers (P : Buffer → Prop) cfg coin n :
  (∀ key buf, P buf → P (ensure_bucket key buf)) →
  P (phaseOneMessages n) → P (phaseTwoMessages n) →
  (P (phaseOneMessages (processPhaseOneMessages cfg n))
   ∧ P (phaseTwoMessages (processPhaseOneMessages cfg n)))
  ∧ (P (phaseOneMessages (processPhaseTwoMessages cfg coin n))
     ∧ P (phaseTwoMessages (processPhaseTwoMessages cfg coin n))).
Proof.
  intros HP H1 H2.
  unfold processPhaseOneMessages, processPhaseTwoMessages.
  destruct (killed (state n)); simpl; auto.
Qed.

Lemma roundEnd_buffers n :
  phaseOneMessages (roundEnd n).1 = phaseOneMessages n
  ∧ phaseTwoMessages (roundEnd n).1 = phaseTwoMessages n.
Proof. unfold roundEnd. by destruct (negb _ && negb _). Qed.

Lemma runPhaseTwo_buffers cfg n :
  phaseOneMessages (runPhaseTwo cfg n).1 = phaseOneMessages n
  ∧ phaseTwoMessages (runPhaseTwo cfg n).1 = phaseTwoMessages n.
Proof.
  unfold runPhaseTwo.
  destruct (killed (state n) || truthy (decided (state n)));
    [apply roundEnd_buffers | done].
Qed.

Lemma roundLoop_buffers cfg n :
  phaseOneMessages (roundLoop cfg n).1 = phaseOneMessages n
  ∧ phaseTwoMessages (roundLoop cfg n).1 = phaseTwoMessages n.
Proof.
  unfold roundLoop, runPhaseOne.
  destruct (negb _ && negb _); [|done].
  destruct (killed (state n) || truthy (decided (state n)));
    [apply runPhaseTwo_buffers | done].
Qed.

Lemma resume_buffers (P : Buffer → Prop) cfg o pc n :
  (∀ key buf, P buf → P (ensure_bucket key buf)) →
  P (phaseOneMessages n) → P (phaseTwoMessages n) →
  P (phaseOneMessages (resume cfg o pc n).1)
  ∧ P (phaseTwoMessages (resume cfg o pc n).1).
Proof.
  intros HP H1 H2.
  assert (∀ ph, P (phaseOneMessages (afterWait cfg o ph n).1)
                ∧ P (phaseTwoMessages (afterWait cfg o ph n).1)) as Hafter.
  { intros ph.
    destruct (tallies_buffers P cfg (randomLow o) n HP H1 H2) as [Ha Hb].
    destruct ph; unfold afterWait.
    - destruct (runPhaseTwo_buffers cfg (processPhaseOneMessages cfg n))
        as [-> ->]. done.
    - destruct (roundEnd_buffers
                  (processPhaseTwoMessages cfg (randomLow o) n)) as [-> ->].
      done. }
  assert (∀ ph currentK,
            P (phaseOneMessages (pollMessages cfg o ph currentK n).1)
            ∧ P (phaseTwoMessages (pollMessages cfg o ph currentK n).1))
    as Hpoll.
  { intros ph currentK. unfold pollMessages.
    destruct (keepWaiting cfg o ph currentK n); [done | apply Hafter]. }
  destruct pc as [ph|ph currentK|]; simpl.
  - apply Hpoll.
  - destruct (killed (state n)); [apply Hafter | apply Hpoll].
  - destruct (roundLoop_buffers cfg n) as [-> ->]. done.
Qed.

Lemma step_ownBuckets cfg n ev :
  ownBuckets (phaseOneMessages n) ∧ ownBuckets (phaseTwoMessages n) →
  ownBuckets (phaseOneMessages (step cfg n ev))
  ∧ ownBuckets (phaseTwoMessages (step cfg n ev)).
Proof.
  intros [H1 H2]. destruct ev as [[| b | | |]|i o]; simpl.
  - unfold statusHandler. by destruct (isFaulty cfg).
  - rewrite messageHandler_node.
    destruct (killed (state n) || isFaulty cfg); [done|].
    destruct (strict_eq (body_phase b) (JNum 1)); simpl;
      [auto using ownBuckets_delivered|].
    destruct (strict_eq (body_phase b) (JNum 2)); simpl;
      auto using ownBuckets_delivered.
  - unfold startHandler.
    destruct (isFaulty cfg || killed (state n)); simpl; [done|].
    destruct (consensusRunning n); simpl; [done|].
    unfold startConsensus.
    destruct (bool_decide (N cfg = 1) && negb (isFaulty cfg)); simpl; [done|].
    destruct (roundLoop_buffers cfg (set_consensusRunning true n)) as [-> ->].
    done.
  - done.
  - done.
  - destruct (tasks n !! i) as [pc|]; [|done].
    pose proof (resume_buffers ownBuckets cfg o pc n ownBuckets_ensure H1 H2)
      as H.
    destruct (resume cfg o pc n) as [n' [pc'|]]; exact H.
Qed.

Lemma run_ownBuckets cfg evs n :
  ownBuckets (phaseOneMessages n) ∧ ownBuckets (phaseTwoMessages n) →
  ownBuckets (phaseOneMessages (run cfg evs n))
  ∧ ownBuckets (phaseTwoMessages (run cfg evs n)).
Proof.
  revert n. induction evs as [|ev evs IH]; intros n Hn; simpl; [done|].
  apply IH. by apply step_ownBuckets.
Qed.

(** X16.  On a live non-faulty node, at any point of an execution, a
    [/message] whose [phase] is 1 or 2 and whose [k] names a property
    that objects inherit from [Object.prototype] ("constructor",
    "toString", "__proto__", ...) is answered with status 500 and stores
    nothing: no bucket is ever created under such a name, what the name
    gives has no [push], and the handler throws. *)
Theorem inherited_name_crashes (cfg : Config) (evs : list Event) (b : Body) :
  let n := run cfg evs (init cfg) in
  killed (state n) = false →
  isFaulty cfg = false →
  body_phase b = JNum 1 ∨ body_phase b = JNum 2 →
  inherited (propertyName (body_k b)) = true →
  handle cfg (PostMessage b) n = (n, mkResponse 500 PCrash).
Proof.
  intros n Hk Hf Hp Hi.
  assert (ownBuckets (phaseOneMessages n) ∧ ownBuckets (phaseTwoMessages n))
    as [H1 H2].
  { apply run_ownBuckets. split; intros key _; apply lookup_empty. }
  simpl. unfold messageHandler, strict_eq. rewrite Hk, Hf. simpl.
  destruct Hp as [Hp|Hp]; rewrite Hp.
  - rewrite bool_decide_eq_true_2 by done.
    by rewrite push_None by auto.
  - rewrite bool_decide_eq_false_2 by done.
    rewrite bool_decide_eq_true_2 by done.
    by rewrite push_None by auto.
Qed.


(** ** The further properties at work on the scenarios *)

(** Node 0 of three sends to the peers 1 and 2. *)
Lemma three_nodes_fanout :
  0 ≤ nodeId threeNodes < N threeNodes
  ∧ (outbox (broadcastMessage threeNodes 1 (Some V1) (Some 0)
               (init threeNodes))).*1 = [1; 2].
Proof.
  assert (0 ≤ nodeId threeNodes < N threeNodes) as Hid by (simpl; lia).
  split; [exact Hid|].
  destruct (broadcast_fanout threeNodes 1 (Some V1) (Some 0)
              (init threeNodes) Hid) as (sent & Heq & Hpeers & _).
  rewrite Heq. simpl. rewrite Hpeers. vm_compute. reflexivity.
Defined.

(** Over [lonelyRun] the round number stays between 0 and 5. *)
Lemma lonely_round_number :
  k (state (init threeNodes)) = Some 0
  ∧ ∃ r', k (state (run threeNodes lonelyRun (init threeNodes))) = Some r'
          ∧ 0 ≤ r' ≤ 0 + Z.of_nat (length lonelyRun).
Proof.
  split; [reflexivity|].
  exact (round_number_monotone threeNodes lonelyRun (init threeNodes) 0
           eq_refl).
Defined.

(** A message of phase 1 and one of phase 2 can be served in any order. *)
Lemma two_phases_commute :
  exactNumber (body_k strayBody)
  ∧ exactNumber (body_k (mkBody (JNum 2) (JNum 0) (JStr "0") (JNum 2)))
  ∧ (body_phase strayBody, propertyName (body_k strayBody))
    ≠ (JNum 2, propertyName (JStr "0"))
  ∧ (handle threeNodes
       (PostMessage (mkBody (JNum 2) (JNum 0) (JStr "0") (JNum 2)))
       (handle threeNodes (PostMessage strayBody) (init threeNodes)).1).1
    = (handle threeNodes (PostMessage strayBody)
         (handle threeNodes
            (PostMessage (mkBody (JNum 2) (JNum 0) (JStr "0") (JNum 2)))
            (init threeNodes)).1).1.
Proof.
  assert (exactNumber (body_k strayBody)) as H1 by (simpl; lia).
  assert (exactNumber (body_k (mkBody (JNum 2) (JNum 0) (JStr "0") (JNum 2))))
    as H2 by exact I.
  assert ((body_phase strayBody, propertyName (body_k strayBody))
          ≠ (JNum 2, propertyName (JStr "0"))) as Hne by discriminate.
  split; [exact H1|]. split; [exact H2|]. split; [exact Hne|].
  exact (deliveries_commute threeNodes strayBody
           (mkBody (JNum 2) (JNum 0) (JStr "0") (JNum 2)) (init threeNodes)
           H1 H2 Hne).
Defined.

(** The faulty node of four answers with [null] fields after [faultyRun]. *)
Lemma faulty_node_reports_null :
  isFaulty faultyNode = true
  ∧ (handle faultyNode GetGetState
       (run faultyNode faultyRun (init faultyNode))).2
    = mkResponse 200 (PState (mkState true None None None)).
Proof.
  split; [reflexivity|].
  destruct (faulty_node_is_inert faultyNode faultyRun eq_refl)
    as (_ & _ & _ & _ & _ & _ & _ & Hget).
  rewrite Hget. vm_compute. reflexivity.
Defined.

(** Node 0 of three that hears nobody is past round 0 after the
    wake-ups of [silentRound]. *)
Lemma silent_round_completes :
  tasks (run threeNodes [Req GetStart] (init threeNodes))
  = [AwaitBroadcast PhaseOne]
  ∧ killed (state (run threeNodes [Req GetStart] (init threeNodes))) = false
  ∧ decided (state (run threeNodes [Req GetStart] (init threeNodes)))
    = Some false
  ∧ k (state (run threeNodes [Req GetStart] (init threeNodes))) = Some 0
  ∧ (4 ≤ length (timedOuts silentRound))%nat
  ∧ (decided (state (run threeNodes (Resume 0%nat <$> silentRound)
                       (run threeNodes [Req GetStart] (init threeNodes))))
     = Some true
     ∨ ∃ r', k (state (run threeNodes (Resume 0%nat <$> silentRound)
                         (run threeNodes [Req GetStart] (init threeNodes))))
             = Some r' ∧ 0 < r').
Proof.
  assert (4 ≤ length (timedOuts silentRound))%nat as Hos
    by (vm_compute; lia).
  split; [reflexivity|]. split; [reflexivity|]. split; [reflexivity|].
  split; [reflexivity|]. split; [exact Hos|].
  exact (timeouts_complete_round threeNodes silentRound
           (run threeNodes [Req GetStart] (init threeNodes)) 0
           eq_refl eq_refl eq_refl eq_refl Hos).
Defined.

(** [divided] and [shuffled] give the same phase-1 tally. *)
Lemma shuffled_bucket_tallies_alike :
  state (holding PhaseOne divided) = state (holding PhaseOne shuffled)
  ∧ state (processPhaseOneMessages threeNodes (holding PhaseOne divided))
    = state (processPhaseOneMessages threeNodes (holding PhaseOne shuffled)).
Proof.
  split; [reflexivity|].
  destruct (tally_reads_values_as_multiset threeNodes true
              (holding PhaseOne divided) (holding PhaseOne shuffled) eq_refl)
    as [Hone _].
  apply Hone. vm_compute. apply perm_swap.
Defined.

(** After [decidingRun] nothing more is sent, whatever follows. *)
Lemma decided_node_sends_nothing :
  isFaulty threeNodes = false
  ∧ initialValue threeNodes ≠ VQ
  ∧ decided (state (run threeNodes decidingRun (init threeNodes))) = Some true
  ∧ outbox (run threeNodes afterDecision
              (run threeNodes decidingRun (init threeNodes)))
    = outbox (run threeNodes decidingRun (init threeNodes)).
Proof.
  assert (initialValue threeNodes ≠ VQ) as Hv by (vm_compute; discriminate).
  assert (decided (state (run threeNodes decidingRun (init threeNodes)))
          = Some true) as Hd by (vm_compute; reflexivity).
  split; [reflexivity|]. split; [exact Hv|]. split; [exact Hd|].
  destruct (decided_node_goes_silent threeNodes decidingRun afterDecision
              timedOut eq_refl Hv Hd) as (_ & _ & Ho).
  exact Ho.
Defined.

(** All that node 0 sent over [decidingRun] is well formed. *)
Lemma deciding_run_sends_well :
  isFaulty threeNodes = false
  ∧ initialValue threeNodes ≠ VQ
  ∧ length (outbox (run threeNodes decidingRun (init threeNodes))) = 4%nat
  ∧ Forall (sendable threeNodes)
      (outbox (run threeNodes decidingRun (init threeNodes))).
Proof.
  assert (initialValue threeNodes ≠ VQ) as Hv by (vm_compute; discriminate).
  split; [reflexivity|]. split; [exact Hv|]. split; [reflexivity|].
  exact (sent_messages_well_formed threeNodes decidingRun eq_refl Hv).
Defined.

(** With one peer on 1 beside its own 1, node 0 does not read the coin. *)
Lemma quiet_bucket_needs_no_coin :
  (adoptionThreshold threeNodes
     ≤ count V0 (x (state (holding PhaseTwo quiet)))
         (bucket (keyOf (k (state (holding PhaseTwo quiet))))
            (phaseTwoMessages (holding PhaseTwo quiet)))
   ∨ adoptionThreshold threeNodes
     ≤ count V1 (x (state (holding PhaseTwo quiet)))
         (bucket (keyOf (k (state (holding PhaseTwo quiet))))
            (phaseTwoMessages (holding PhaseTwo quiet))))
  ∧ processPhaseTwoMessages threeNodes true (holding PhaseTwo quiet)
    = processPhaseTwoMessages threeNodes false (holding PhaseTwo quiet).
Proof.
  assert (adoptionThreshold threeNodes
            ≤ count V0 (x (state (holding PhaseTwo quiet)))
                (bucket (keyOf (k (state (holding PhaseTwo quiet))))
                   (phaseTwoMessages (holding PhaseTwo quiet)))
          ∨ adoptionThreshold threeNodes
            ≤ count V1 (x (state (holding PhaseTwo quiet)))
                (bucket (keyOf (k (state (holding PhaseTwo quiet))))
                   (phaseTwoMessages (holding PhaseTwo quiet)))) as Hreach.
  { right. vm_compute. discriminate. }
  split; [exact Hreach|].
  exact (coin_only_below_adoption threeNodes (holding PhaseTwo quiet) Hreach).
Defined.

(** Node 0 of three is still undecided after [lonelyRun]. *)
Lemma lonely_node_is_undecided :
  isFaulty threeNodes = false
  ∧ 2 ≤ N threeNodes
  ∧ noDelivery lonelyRun
  ∧ decided (state (run threeNodes lonelyRun (init threeNodes))) = Some false.
Proof.
  assert (2 ≤ N threeNodes) as HN by (simpl; lia).
  assert (noDelivery lonelyRun) as Hevs
    by (repeat constructor; intros b; discriminate).
  split; [reflexivity|]. split; [exact HN|]. split; [exact Hevs|].
  exact (isolated_node_never_decides threeNodes lonelyRun eq_refl HN Hevs).
Defined.

(** Node 0 turns to 0 in phase 1 because its peers brought it. *)
Lemma opposed_bucket_brings_zero :
  0 ≤ N threeNodes
  ∧ killed (state (holding PhaseOne opposed)) = false
  ∧ V0 ≠ VQ
  ∧ x (state (processPhaseOneMessages threeNodes (holding PhaseOne opposed)))
    = Some V0
  ∧ (x (state (holding PhaseOne opposed)) = Some V0
     ∨ ∃ m, m ∈ bucket (keyOf (k (state (holding PhaseOne opposed))))
                  (phaseOneMessages (holding PhaseOne opposed))
            ∧ msg_value m = to_wire (Some V0)).
Proof.
  assert (0 ≤ N threeNodes) as HN by (simpl; lia).
  assert (V0 ≠ VQ) as Hv by discriminate.
  assert (x (state (processPhaseOneMessages threeNodes
                      (holding PhaseOne opposed))) = Some V0) as Hx
    by (vm_compute; reflexivity).
  split; [exact HN|]. split; [reflexivity|]. split; [exact Hv|].
  split; [exact Hx|].
  exact (phase_one_adopts_only_votes threeNodes (holding PhaseOne opposed) V0
           HN eq_refl Hv Hx).
Defined.

(** A delivery for the round "constructor" is answered 500. *)
Lemma constructor_round_crashes :
  killed (state (run threeNodes decidingRun (init threeNodes))) = false
  ∧ isFaulty threeNodes = false
  ∧ (body_phase namedBody = JNum 1 ∨ body_phase namedBody = JNum 2)
  ∧ inherited (propertyName (body_k namedBody)) = true
  ∧ status (handle threeNodes (PostMessage namedBody)
              (run threeNodes decidingRun (init threeNodes))).2 = 500.
Proof.
  assert (killed (state (run threeNodes decidingRun (init threeNodes))) = false)
    as Hk by (vm_compute; reflexivity).
  split; [exact Hk|]. split; [reflexivity|].
  split; [left; reflexivity|]. split; [reflexivity|].
  rewrite (inherited_name_crashes threeNodes decidingRun namedBody
             Hk eq_refl (or_introl eq_refl) eq_refl).
  reflexivity.
Defined.
